(** * UnleashClient: the client object and the gradualRolloutSessionId strategy

    A shallow embedding of [UnleashClient/__init__.py] (class [UnleashClient])
    and [UnleashClient/strategies/GradualRolloutSessionId.py].

    Python dictionaries are finite maps, Python objects that are mutated
    through a shared reference (the context dictionary handed to
    [is_enabled]) live in a store indexed by identity, and a method is a
    computation over the pair of [self] and that store which either
    returns a value or raises. *)

From Stdlib Require Import ZArith String Ascii List Bool Lia.
From stdpp Require Import base option gmap strings list fin_maps.

Open Scope Z_scope.

(** ** Python values, exceptions and outcomes *)

(** The values that occur in contexts, strategy parameters and the cache. *)
Inductive pyval : Type :=
| VNone
| VBool (b : bool)
| VInt (n : Z)
| VStr (s : string)
| VDatetime (t : Z).

(** A [dict] with string keys. *)
Abbreviation dict := (gmap string pyval).

(** What a [raise] can carry.  The last two derive from [BaseException]
    only; everything else is a subclass of [Exception]. *)
Inductive exn : Type :=
| KeyError (key : string)
| TypeError
| AttributeError (attr : string)
| SchedulerAlreadyRunningError
| SchedulerNotRunningError
| JobLookupError
| FileNotFoundError
| OtherException (msg : string)
| KeyboardInterrupt
| SystemExit.

(** [isinstance(e, Exception)]: what [except Exception] catches. *)
Definition isinstance_Exception (e : exn) : bool :=
  match e with
  | KeyboardInterrupt | SystemExit => false
  | _ => true
  end.

Inductive outcome (A : Type) : Type :=
| Return (a : A)
| Raise (e : exn).
Arguments Return {A} a.
Arguments Raise {A} e.

Definition outcome_bind {A B} (o : outcome A) (k : A → outcome B) : outcome B :=
  match o with
  | Return a => k a
  | Raise e => Raise e
  end.

#[global] Instance outcome_ret : MRet outcome := λ A a, Return a.
#[global] Instance outcome_mbind : MBind outcome := λ A B k o, outcome_bind o k.

(** [d[k]] on a dict. *)
Definition getitem (d : dict) (k : string) : outcome pyval :=
  match d !! k with
  | Some v => Return v
  | None => Raise (KeyError k)
  end.

(** [context[k]] where [context] may be the default [None]. *)
Definition subscript (context : option dict) (k : string) : outcome pyval :=
  match context with
  | Some d => getitem d k
  | None => Raise TypeError
  end.

(** The integer a value stands for under [<]: [bool] is a subclass of [int]. *)
Definition as_int (v : pyval) : option Z :=
  match v with
  | VInt n => Some n
  | VBool b => Some (if b then 1 else 0)
  | _ => None
  end.

(** Python 3 [a < b]: numbers with numbers, strings with strings, datetimes
    with datetimes; anything else is a [TypeError]. *)
Definition py_lt (a b : pyval) : outcome bool :=
  match as_int a, as_int b with
  | Some x, Some y => Return (x <? y)
  | _, _ =>
      match a, b with
      | VStr s, VStr t => Return (String.ltb s t)
      | VDatetime s, VDatetime t => Return (s <? t)
      | _, _ => Raise TypeError
      end
  end.

(** [s.rstrip(chars)]: drop every trailing character that is in [chars]. *)
Fixpoint rstrip (chars : list ascii) (s : string) : string :=
  match s with
  | EmptyString => EmptyString
  | String a rest =>
      match rstrip chars rest with
      | EmptyString => if bool_decide (a ∈ chars) then EmptyString else String a EmptyString
      | rest' => String a rest'
      end
  end.

(** ** strategies/GradualRolloutSessionId.py *)

Section GradualRollout.
(** [UnleashClient.utils.normalized_hash(identifier, activation_group)]:
    its module is not part of the sources at hand, so the strategy is
    parameterised by it. *)
Variable normalized_hash : pyval → pyval → Z.

(** [GradualRolloutSessionId.__call__(self, context=None)], with
    [self.parameters] as first argument. *)
Definition GradualRolloutSessionId_call (parameters : dict) (context : option dict)
  : outcome bool :=
  percentage ← getitem parameters "percentage";
  activation_group ← getitem parameters "groupId";
  session_id ← subscript context "sessionId";
  py_lt percentage (VInt (normalized_hash session_id activation_group)).

(** The predicate the specification gives for the same strategy:
    [normalizedHash(context.sessionId, groupId) < percentage]. *)
Definition spec_gradual_rollout (percentage : Z) (session_id group_id : pyval) : bool :=
  normalized_hash session_id group_id <? percentage.
End GradualRollout.

(** The text a value contributes to the hashed string. *)
Definition pyval_str (v : pyval) : string :=
  match v with
  | VStr s => s
  | VInt _ => "int"
  | VBool b => if b then "True" else "False"
  | VNone => "None"
  | VDatetime _ => "datetime"
  end.

(** A 32-bit checksum: the sum of the character codes. *)
Definition checksum32 (s : string) : Z :=
  fold_right (λ a acc, (Z.of_N (N_of_ascii a) + acc) mod 2 ^ 32) 0 (list_ascii_of_string s).

(** Modelled from the spec: [normalized_hash] of [UnleashClient/utils.py],
    which is not among the sources.  Section 4.1: hash the concatenation of
    groupId and identifier with a stable 32-bit checksum and reduce modulo
    100. *)
Definition checksum_normalized_hash (identifier group_id : pyval) : Z :=
  checksum32 (pyval_str group_id +:+ pyval_str identifier) mod 100.

(** ** The strategy registry of [UnleashClient.__init__] *)

(** The strategy classes: the seven imported from
    [UnleashClient.strategies], and whatever classes the caller supplies. *)
Inductive strategy_class : Type :=
| ApplicationHostname
| Default
| GradualRolloutRandom
| GradualRolloutSessionId
| GradualRolloutUserId
| RemoteAddress
| UserWithId
| CustomStrategy (name : string).

Definition default_strategy_mapping : gmap string strategy_class :=
  {[ "applicationHostname" := ApplicationHostname;
     "default" := Default;
     "gradualRolloutRandom" := GradualRolloutRandom;
     "gradualRolloutSessionId" := GradualRolloutSessionId;
     "gradualRolloutUserId" := GradualRolloutUserId;
     "remoteAddress" := RemoteAddress;
     "userWithId" := UserWithId ]}.

(** [{**a, **b}]: the keys of both, and [b]'s value where both have one.
    stdpp's union keeps the left operand's value. *)
Definition dict_unpack2 {V} (a b : gmap string V) : gmap string V := b ∪ a.

Definition build_strategy_mapping (custom_strategies : gmap string strategy_class)
  : gmap string strategy_class :=
  dict_unpack2 custom_strategies default_strategy_mapping.

(** ** Collaborators of the client *)

(** [fcache.cache.FileCache]: a directory of entries on disk, named by the
    cache directory and the application name, behind a write buffer.
    [cache[k] = v] writes to the buffer, [sync()] flushes the buffer to the
    directory and clears it, [delete()] drops the buffer and then removes
    the directory, which raises when the directory is not there. *)
Abbreviation cache_path := (option string * string)%type.
Abbreviation disk := (gmap cache_path dict).

Record FileCache : Type := mkFileCache {
  fc_path : cache_path;
  fc_buffer : dict }.

Definition FileCache_new (appname : string) (app_cache_dir : option string) (d : disk)
  : FileCache * disk :=
  let p := (app_cache_dir, appname) in
  (mkFileCache p ∅, <[p := default ∅ (d !! p)]> d).

Definition FileCache_setitem (k : string) (v : pyval) (c : FileCache) : FileCache :=
  mkFileCache (fc_path c) (<[k := v]> (fc_buffer c)).

Definition FileCache_sync (c : FileCache) (d : disk) : FileCache * disk :=
  (mkFileCache (fc_path c) ∅,
   <[fc_path c := fc_buffer c ∪ default ∅ (d !! fc_path c)]> d).

Definition FileCache_delete (c : FileCache) (d : disk) : outcome unit * (FileCache * disk) :=
  match d !! fc_path c with
  | Some _ => (Return tt, (mkFileCache (fc_path c) ∅, delete (fc_path c) d))
  | None => (Raise FileNotFoundError, (mkFileCache (fc_path c) ∅, d))
  end.

(** What is on disk under a key, as a process started later would find it. *)
Definition persisted (d : disk) (p : cache_path) (k : string) : option pyval :=
  d !! p ≫= λ entries, entries !! k.

(** The keyword arguments built by [initialize_client].  The two mutable
    objects among them, [cache] and [features], are the client's own and
    are reached through the client. *)
Record fl_kwargs : Type := mk_fl_kwargs {
  fl_url : string;
  fl_app_name : string;
  fl_instance_id : string;
  fl_custom_headers : gmap string string;
  fl_strategy_mapping : gmap string strategy_class }.

Record metrics_kwargs : Type := mk_metrics_kwargs {
  ma_url : string;
  ma_app_name : string;
  ma_instance_id : string;
  ma_custom_headers : gmap string string }.

(** The function and keyword arguments of a scheduled job. *)
Inductive job_func : Type :=
| Job_fetch_and_load_features (kwargs : fl_kwargs)
| Job_aggregate_and_send_metrics (kwargs : metrics_kwargs).

(** Calls that leave the process: the requests to the Unleash server. *)
Inductive call : Type :=
| Call_register_client (url app_name instance_id : string) (metrics_interval : Z)
    (custom_headers : gmap string string) (supported : gmap string strategy_class)
| Call_fetch_and_load_features (kwargs : fl_kwargs).

(** A record handed to [LOGGER.warning]. *)
Inductive log_arg : Type :=
| LogStr (s : string)
| LogExn (e : exn).

Record log_record : Type := Warning {
  log_format : string;
  log_argument : log_arg }.

(** What [fetch_and_load_features] can reach through its arguments. *)
Record FetchStore (Feature FeatureHeap : Type) : Type := mkFetchStore {
  fs_cache : FileCache;
  fs_disk : disk;
  fs_features : gmap string Feature;
  fs_heap : FeatureHeap }.
Arguments mkFetchStore {Feature FeatureHeap} _ _ _ _.
Arguments fs_cache {Feature FeatureHeap} _.
Arguments fs_disk {Feature FeatureHeap} _.
Arguments fs_features {Feature FeatureHeap} _.
Arguments fs_heap {Feature FeatureHeap} _.

(** The modules the client imports whose code is not at hand
    ([UnleashClient.constants], [.features], [.api], [.periodic_tasks]) and
    the scheduler of [apscheduler].  A [Feature] is the identity of a
    feature object; the state such objects carry (their counters) is the
    [FeatureHeap], which only their own methods change. *)
Class Collaborators : Type := {
  METRIC_LAST_SENT_TIME : string;
  Feature : Type;
  FeatureHeap : Type;
  Feature_is_enabled : Feature → dict → bool → FeatureHeap → outcome bool * FeatureHeap;
  register_client :
    string → string → string → Z → gmap string string → gmap string strategy_class →
    outcome bool;
  fetch_and_load_features :
    fl_kwargs → FetchStore Feature FeatureHeap → outcome unit * FetchStore Feature FeatureHeap;
  Scheduler : Type;
  Job : Type;
  BackgroundScheduler : Scheduler;
  Scheduler_start : Scheduler → outcome unit * Scheduler;
  Scheduler_add_job : job_func → Z → Scheduler → outcome Job * Scheduler;
  Scheduler_shutdown : Scheduler → outcome unit * Scheduler;
  Job_remove : Job → Scheduler → outcome unit * Scheduler }.

(** ** class UnleashClient *)

(** Identities of the dictionaries callers pass as [context]. *)
Abbreviation loc := positive.

(** The dictionary built once, when [def is_enabled(..., context: dict = {},
    ...)] is evaluated, and used by every call that omits [context]. *)
Definition is_enabled_default_context : loc := 1%positive.

(** Optional arguments of the constructor; [None] is an omitted argument. *)
Record init_kwargs : Type := mk_init_kwargs {
  kw_environment : option string;
  kw_instance_id : option string;
  kw_refresh_interval : option Z;
  kw_metrics_interval : option Z;
  kw_disable_metrics : option bool;
  kw_disable_registration : option bool;
  kw_custom_headers : option (gmap string string);
  kw_custom_strategies : option (gmap string strategy_class);
  kw_cache_directory : option string }.

Definition no_kwargs : init_kwargs :=
  mk_init_kwargs None None None None None None None None None.

Section Client.
Context `{Collaborators}.

(** The attributes of a client object. *)
Record UnleashClient : Type := mkUnleashClient {
  unleash_url : string;
  unleash_app_name : string;
  unleash_environment : string;
  unleash_instance_id : string;
  unleash_refresh_interval : Z;
  unleash_metrics_interval : Z;
  unleash_disable_metrics : bool;
  unleash_disable_registration : bool;
  unleash_custom_headers : gmap string string;
  unleash_static_context : dict;
  cache : FileCache;
  features : gmap string Feature;
  scheduler : Scheduler;
  fl_job : option Job;
  metric_job : option Job;
  strategy_mapping : gmap string strategy_class;
  is_initialized : bool }.

(** Everything outside the client object that its methods read or write:
    the dictionaries of the callers (a location that was never written
    holds a dictionary that is still empty), the state of the feature
    objects, the cache directories, the clock, the requests sent and the
    warnings logged (oldest first). *)
Record World : Type := mkWorld {
  dicts : gmap loc dict;
  feature_heap : FeatureHeap;
  files : disk;
  clock : Z;
  calls : list call;
  warnings : list log_record }.

Definition read_dict (w : World) (l : loc) : dict := default ∅ (dicts w !! l).

Definition set_dicts (ds : gmap loc dict) (w : World) : World :=
  mkWorld ds (feature_heap w) (files w) (clock w) (calls w) (warnings w).
Definition set_feature_heap (h : FeatureHeap) (w : World) : World :=
  mkWorld (dicts w) h (files w) (clock w) (calls w) (warnings w).
Definition set_files (d : disk) (w : World) : World :=
  mkWorld (dicts w) (feature_heap w) d (clock w) (calls w) (warnings w).
Definition add_call (c : call) (w : World) : World :=
  mkWorld (dicts w) (feature_heap w) (files w) (clock w) (calls w ++ [c]) (warnings w).
Definition add_warning (r : log_record) (w : World) : World :=
  mkWorld (dicts w) (feature_heap w) (files w) (clock w) (calls w) (warnings w ++ [r]).

Definition set_cache (c : FileCache) (s : UnleashClient) : UnleashClient :=
  mkUnleashClient (unleash_url s) (unleash_app_name s) (unleash_environment s)
    (unleash_instance_id s) (unleash_refresh_interval s) (unleash_metrics_interval s)
    (unleash_disable_metrics s) (unleash_disable_registration s) (unleash_custom_headers s)
    (unleash_static_context s) c (features s) (scheduler s) (fl_job s) (metric_job s)
    (strategy_mapping s) (is_initialized s).
Definition set_features (f : gmap string Feature) (s : UnleashClient) : UnleashClient :=
  mkUnleashClient (unleash_url s) (unleash_app_name s) (unleash_environment s)
    (unleash_instance_id s) (unleash_refresh_interval s) (unleash_metrics_interval s)
    (unleash_disable_metrics s) (unleash_disable_registration s) (unleash_custom_headers s)
    (unleash_static_context s) (cache s) f (scheduler s) (fl_job s) (metric_job s)
    (strategy_mapping s) (is_initialized s).
Definition set_scheduler (sch : Scheduler) (s : UnleashClient) : UnleashClient :=
  mkUnleashClient (unleash_url s) (unleash_app_name s) (unleash_environment s)
    (unleash_instance_id s) (unleash_refresh_interval s) (unleash_metrics_interval s)
    (unleash_disable_metrics s) (unleash_disable_registration s) (unleash_custom_headers s)
    (unleash_static_context s) (cache s) (features s) sch (fl_job s) (metric_job s)
    (strategy_mapping s) (is_initialized s).
Definition set_fl_job (j : option Job) (s : UnleashClient) : UnleashClient :=
  mkUnleashClient (unleash_url s) (unleash_app_name s) (unleash_environment s)
    (unleash_instance_id s) (unleash_refresh_interval s) (unleash_metrics_interval s)
    (unleash_disable_metrics s) (unleash_disable_registration s) (unleash_custom_headers s)
    (unleash_static_context s) (cache s) (features s) (scheduler s) j (metric_job s)
    (strategy_mapping s) (is_initialized s).
Definition set_metric_job (j : option Job) (s : UnleashClient) : UnleashClient :=
  mkUnleashClient (unleash_url s) (unleash_app_name s) (unleash_environment s)
    (unleash_instance_id s) (unleash_refresh_interval s) (unleash_metrics_interval s)
    (unleash_disable_metrics s) (unleash_disable_registration s) (unleash_custom_headers s)
    (unleash_static_context s) (cache s) (features s) (scheduler s) (fl_job s) j
    (strategy_mapping s) (is_initialized s).
Definition set_is_initialized (b : bool) (s : UnleashClient) : UnleashClient :=
  mkUnleashClient (unleash_url s) (unleash_app_name s) (unleash_environment s)
    (unleash_instance_id s) (unleash_refresh_interval s) (unleash_metrics_interval s)
    (unleash_disable_metrics s) (unleash_disable_registration s) (unleash_custom_headers s)
    (unleash_static_context s) (cache s) (features s) (scheduler s) (fl_job s) (metric_job s)
    (strategy_mapping s) b.

(** [UnleashClient.__init__(self, url, app_name, ...)]: the new object and
    what constructing it did to the world. *)
Definition __init__ (url app_name : string) (kw : init_kwargs) (w : World)
  : UnleashClient * World :=
  let environment := default "default" (kw_environment kw) in
  let instance_id := default "unleash-client-python" (kw_instance_id kw) in
  let custom_strategies := default ∅ (kw_custom_strategies kw) in
  let '(cache0, files0) := FileCache_new instance_id (kw_cache_directory kw) (files w) in
  let cache1 := FileCache_setitem METRIC_LAST_SENT_TIME (VDatetime (clock w)) cache0 in
  let '(cache2, files1) := FileCache_sync cache1 files0 in
  (mkUnleashClient
     (rstrip ["\"%char] url)
     app_name
     environment
     instance_id
     (default 15 (kw_refresh_interval kw))
     (default 60 (kw_metrics_interval kw))
     (default false (kw_disable_metrics kw))
     (default false (kw_disable_registration kw))
     (default ∅ (kw_custom_headers kw))
     {[ "appName" := VStr app_name; "environment" := VStr environment ]}
     cache2
     ∅
     BackgroundScheduler
     None
     None
     (build_strategy_mapping custom_strategies)
     false,
   set_files files1 w).

(** *** Methods as computations

    A method runs on [self] and the world, and ends by returning or by
    raising; what it wrote before raising stays written. *)
Record St : Type := mkSt {
  self : UnleashClient;
  world : World }.

Definition M (A : Type) : Type := St → outcome A * St.

#[global] Instance M_ret : MRet M := λ A a s, (Return a, s).
#[global] Instance M_bind : MBind M := λ A B k m s,
  match m s with
  | (Return a, s') => k a s'
  | (Raise e, s') => (Raise e, s')
  end.

Definition raise {A} (e : exn) : M A := λ s, (Raise e, s).
Definition get_self : M UnleashClient := λ s, (Return (self s), s).
Definition modify_self (f : UnleashClient → UnleashClient) : M unit :=
  λ s, (Return tt, mkSt (f (self s)) (world s)).
Definition modify_world (f : World → World) : M unit :=
  λ s, (Return tt, mkSt (self s) (f (world s))).
Definition lift_outcome {A} (o : outcome A) : M A := λ s, (o, s).

(** [try: body / except Exception as excep: handler]. *)
Definition try_except_Exception {A} (body : M A) (handler : exn → M A) : M A :=
  λ s,
    match body s with
    | (Return a, s') => (Return a, s')
    | (Raise e, s') => if isinstance_Exception e then handler e s' else (Raise e, s')
    end.

(** [context.update(other)] on the dictionary at [l]. *)
Definition dict_update (l : loc) (other : dict) : M unit :=
  modify_world (λ w, set_dicts (<[l := other ∪ read_dict w l]> (dicts w)) w).

Definition LOGGER_warning (format : string) (arg : log_arg) : M unit :=
  modify_world (add_warning (Warning format arg)).

(** [self.features[feature_name]]. *)
Definition features_getitem (feature_name : string) : M Feature :=
  c ← get_self;
  match features c !! feature_name with
  | Some f => mret f
  | None => raise (KeyError feature_name)
  end.

(** [f.is_enabled(context, default_value)], on the dictionary at [l]. *)
Definition call_Feature_is_enabled (f : Feature) (l : loc) (default_value : bool) : M bool :=
  λ s,
    let '(r, h) :=
      Feature_is_enabled f (read_dict (world s) l) default_value (feature_heap (world s)) in
    (r, mkSt (self s) (set_feature_heap h (world s))).

(** [self.features[feature_name].is_enabled(context, default_value)], the
    expression under [try] in [is_enabled]. *)
Definition evaluate_feature (feature_name : string) (l : loc) (default_value : bool)
  : M bool :=
  f ← features_getitem feature_name;
  call_Feature_is_enabled f l default_value.

(** [UnleashClient.is_enabled(self, feature_name, context={}, default_value=False)].
    [None] for [context] or [default_value] is an omitted argument. *)
Definition is_enabled (feature_name : string) (context : option loc)
    (default_value : option bool) : M bool :=
  let context := default is_enabled_default_context context in
  let default_value := default false default_value in
  c ← get_self;
  dict_update context (unleash_static_context c);;
  if is_initialized c then
    try_except_Exception
      (evaluate_feature feature_name context default_value)
      (λ excep,
         LOGGER_warning "Returning default value for feature: %s" (LogStr feature_name);;
         LOGGER_warning "Error checking feature flag: %s" (LogExn excep);;
         mret default_value)
  else
    LOGGER_warning "Returning default value for feature: %s" (LogStr feature_name);;
    LOGGER_warning "Attempted to get feature_flag %s, but client wasn't initialized!"
      (LogStr feature_name);;
    mret default_value.

(** [register_client(...)]: the request goes out, the result is dropped. *)
Definition call_register_client (url app_name instance_id : string) (metrics_interval : Z)
    (custom_headers : gmap string string) (supported : gmap string strategy_class) : M unit :=
  modify_world
    (add_call (Call_register_client url app_name instance_id metrics_interval
                 custom_headers supported));;
  lift_outcome
    (register_client url app_name instance_id metrics_interval custom_headers supported);;
  mret tt.

(** [fetch_and_load_features] on the client's own [cache] and [features]
    objects, which [fl_args] passes by reference. *)
Definition fetch_on_client (kwargs : fl_kwargs) : M unit :=
  λ s,
    let store :=
      mkFetchStore (cache (self s)) (files (world s)) (features (self s))
        (feature_heap (world s)) in
    let '(r, store') := fetch_and_load_features kwargs store in
    (r, mkSt (set_features (fs_features store') (set_cache (fs_cache store') (self s)))
             (set_feature_heap (fs_heap store') (set_files (fs_disk store') (world s)))).

(** [fetch_and_load_features] called with the keywords of [fl_args]. *)
Definition call_fetch_and_load_features (kwargs : fl_kwargs) : M unit :=
  modify_world (add_call (Call_fetch_and_load_features kwargs));;
  fetch_on_client kwargs.

(** A method of [self.scheduler], or of a job of that scheduler. *)
Definition on_scheduler {A} (op : Scheduler → outcome A * Scheduler) : M A :=
  λ s,
    let '(r, sch) := op (scheduler (self s)) in
    (r, mkSt (set_scheduler sch (self s)) (world s)).

(** [UnleashClient.initialize_client(self)]. *)
Definition initialize_client : M unit :=
  c ← get_self;
  let fl_args :=
    mk_fl_kwargs (unleash_url c) (unleash_app_name c) (unleash_instance_id c)
      (unleash_custom_headers c) (strategy_mapping c) in
  let metrics_args :=
    mk_metrics_kwargs (unleash_url c) (unleash_app_name c) (unleash_instance_id c)
      (unleash_custom_headers c) in
  (if negb (unleash_disable_registration c) then
     call_register_client (unleash_url c) (unleash_app_name c) (unleash_instance_id c)
       (unleash_metrics_interval c) (unleash_custom_headers c) (strategy_mapping c)
   else mret tt);;
  call_fetch_and_load_features fl_args;;
  on_scheduler Scheduler_start;;
  j ← on_scheduler
        (Scheduler_add_job (Job_fetch_and_load_features fl_args) (unleash_refresh_interval c));
  modify_self (set_fl_job (Some j));;
  (if negb (unleash_disable_metrics c) then
     j ← on_scheduler
           (Scheduler_add_job (Job_aggregate_and_send_metrics metrics_args)
              (unleash_metrics_interval c));
     modify_self (set_metric_job (Some j))
   else mret tt);;
  modify_self (set_is_initialized true).

(** [x.remove()] where [x] is a job or [None]. *)
Definition remove_method (x : option Job) : M unit :=
  match x with
  | Some j => on_scheduler (Job_remove j)
  | None => raise (AttributeError "remove")
  end.

(** [self.cache.delete()]: what it did before raising stays done. *)
Definition cache_delete : M unit :=
  λ s,
    let '(r, (c, d)) := FileCache_delete (cache (self s)) (files (world s)) in
    (r, mkSt (set_cache c (self s)) (set_files d (world s))).

(** The statements of [destroy] that come before [self.cache.delete()]:
    the jobs are removed and the scheduler is shut down. *)
Definition destroy_before_cache_delete : M unit :=
  c ← get_self;
  remove_method (fl_job c);;
  c ← get_self;
  (if bool_decide (is_Some (metric_job c)) then remove_method (metric_job c) else mret tt);;
  on_scheduler Scheduler_shutdown.

(** [UnleashClient.destroy(self)]. *)
Definition destroy : M unit :=
  c ← get_self;
  remove_method (fl_job c);;
  c ← get_self;
  (if bool_decide (is_Some (metric_job c)) then remove_method (metric_job c) else mret tt);;
  on_scheduler Scheduler_shutdown;;
  cache_delete.
End Client.

Arguments UnleashClient {_}.
Arguments World {_}.
Arguments St {_}.
Arguments M {_} A.

(** ** Lifetimes of a client *)

Section Lifetime.
Context `{Collaborators}.

(** The state right after [UnleashClient(url, app_name, ...)]. *)
Definition construct (url app_name : string) (kw : init_kwargs) (w : World) : St :=
  let '(c, w') := __init__ url app_name kw w in mkSt c w'.

(** What can happen to a client once built: calls of its three methods,
    and, in between, anything the rest of the program does to the world. *)
Inductive step : Type :=
| Do_initialize_client
| Do_destroy
| Do_is_enabled (feature_name : string) (context : option loc) (default_value : option bool)
| Do_outside (f : World → World).

Definition is_initialize_client (st : step) : bool :=
  match st with
  | Do_initialize_client => true
  | _ => false
  end.

(** A call of a method of the client, as opposed to a step of the rest
    of the program. *)
Definition is_method (st : step) : bool :=
  match st with
  | Do_outside _ => false
  | _ => true
  end.

Definition run_step (st : step) (s : St) : St :=
  match st with
  | Do_initialize_client => (initialize_client s).2
  | Do_destroy => (destroy s).2
  | Do_is_enabled n c d => (is_enabled n c d s).2
  | Do_outside f => mkSt (self s) (f (world s))
  end.

Definition run (history : list step) (s : St) : St :=
  fold_left (λ s st, run_step st s) history s.

(** The attributes [__init__] sets from its arguments and no method
    assigns again. *)
Definition configuration (c : UnleashClient) :=
  (unleash_url c, unleash_app_name c, unleash_environment c, unleash_instance_id c,
   unleash_refresh_interval c, unleash_metrics_interval c, unleash_disable_metrics c,
   unleash_disable_registration c, unleash_custom_headers c, unleash_static_context c,
   strategy_mapping c).

(** The dictionary [is_enabled] hands to the feature: the caller's, after
    [update] with the static context. *)
Definition evaluation_context (s : St) (context : option loc) : dict :=
  unleash_static_context (self s)
  ∪ read_dict (world s) (default is_enabled_default_context context).

(** [except Exception: return default_value] applied to an outcome. *)
Definition or_default (default_value : bool) (r : outcome bool) : outcome bool :=
  match r with
  | Return b => Return b
  | Raise e => if isinstance_Exception e then Return default_value else Raise e
  end.

(** The requests [initialize_client] sends before it touches the
    scheduler: registration unless disabled, then, if registration came
    back, the first fetch. *)
Definition initial_requests (c : UnleashClient) : list call :=
  let fetch :=
    Call_fetch_and_load_features
      (mk_fl_kwargs (unleash_url c) (unleash_app_name c) (unleash_instance_id c)
         (unleash_custom_headers c) (strategy_mapping c)) in
  if unleash_disable_registration c then [fetch]
  else
    Call_register_client (unleash_url c) (unleash_app_name c) (unleash_instance_id c)
      (unleash_metrics_interval c) (unleash_custom_headers c) (strategy_mapping c)
    :: match register_client (unleash_url c) (unleash_app_name c) (unleash_instance_id c)
               (unleash_metrics_interval c) (unleash_custom_headers c) (strategy_mapping c)
       with
       | Return _ => [fetch]
       | Raise _ => []
       end.
End Lifetime.

(** ** One concrete set of collaborators

    Used to run the client on explicit inputs.  Nothing proved for all
    collaborators depends on it. *)

(** Modelled from the spec: a strategy instance of [UnleashClient.strategies]
    (only [GradualRolloutSessionId] is among the sources).  Section 4.2:
    [default] is always true; a custom strategy may fail. *)
Inductive sample_strategy : Type :=
| Strategy_default
| Strategy_gradualRolloutSessionId (parameters : dict)
| Strategy_custom_failing (e : exn).

Definition sample_strategy_call (st : sample_strategy) (context : dict) : outcome bool :=
  match st with
  | Strategy_default => Return true
  | Strategy_gradualRolloutSessionId parameters =>
      GradualRolloutSessionId_call checksum_normalized_hash parameters (Some context)
  | Strategy_custom_failing e => Raise e
  end.

(** Modelled from the spec: the [Feature] class of [UnleashClient.features],
    which is not among the sources.  Section 3: a name, a globally-enabled
    flag, an ordered list of strategy instances. *)
Record sample_feature : Type := mk_sample_feature {
  sf_name : string;
  sf_enabled : bool;
  sf_strategies : list sample_strategy }.

Fixpoint any_strategy (l : list sample_strategy) (context : dict) : outcome bool :=
  match l with
  | [] => Return false
  | st :: rest =>
      b ← sample_strategy_call st context;
      if b : bool then Return true else any_strategy rest context
  end.

(** Modelled from the spec: [Feature.is_enabled].  Section 4.5: false when
    globally disabled; otherwise true iff there are no strategies or one of
    them is true; a failing strategy fails the call.  Section 4.6: one
    observation (enabled, disabled) per evaluation, counted per feature. *)
Definition sample_Feature_is_enabled (f : sample_feature) (context : dict)
    (default_value : bool) (counts : gmap string (nat * nat))
  : outcome bool * gmap string (nat * nat) :=
  let r :=
    if sf_enabled f then
      match sf_strategies f with
      | [] => Return true
      | l => any_strategy l context
      end
    else Return false in
  let '(yes, no) := default (0%nat, 0%nat) (counts !! sf_name f) in
  (r, match r with
      | Return true => <[sf_name f := (S yes, no)]> counts
      | Return false => <[sf_name f := (yes, S no)]> counts
      | Raise _ => counts
      end).

Definition sample_features : gmap string sample_feature :=
  {[ "beta" :=
       mk_sample_feature "beta" true
         [Strategy_gradualRolloutSessionId
            {[ "percentage" := VInt 50; "groupId" := VStr "g1" ]}];
     "gamma" := mk_sample_feature "gamma" false [Strategy_default];
     "broken" := mk_sample_feature "broken" true [Strategy_custom_failing (OtherException "boom")] ]}.

(** Modelled from the spec: [fetch_and_load_features] of
    [UnleashClient.periodic_tasks], on a fetch that succeeds.  Section 4.4:
    the fetched set replaces the current one. *)
Definition sample_fetch (kwargs : fl_kwargs)
    (store : FetchStore sample_feature (gmap string (nat * nat)))
  : outcome unit * FetchStore sample_feature (gmap string (nat * nat)) :=
  (Return tt,
   mkFetchStore (fs_cache store) (fs_disk store) sample_features (fs_heap store)).

(** The scheduler of [apscheduler]: [start] on a running scheduler and
    [shutdown] on a stopped one raise, [add_job] hands out a new job,
    [remove] of a job that is not scheduled raises. *)
Record sample_scheduler : Type := mk_sample_scheduler {
  sch_running : bool;
  sch_jobs : list (nat * job_func * Z);
  sch_next : nat }.

Definition sample_start (s : sample_scheduler) : outcome unit * sample_scheduler :=
  if sch_running s then (Raise SchedulerAlreadyRunningError, s)
  else (Return tt, mk_sample_scheduler true (sch_jobs s) (sch_next s)).

Definition sample_add_job (f : job_func) (seconds : Z) (s : sample_scheduler)
  : outcome nat * sample_scheduler :=
  (Return (sch_next s),
   mk_sample_scheduler (sch_running s) (sch_jobs s ++ [(sch_next s, f, seconds)])
     (S (sch_next s))).

Definition sample_shutdown (s : sample_scheduler) : outcome unit * sample_scheduler :=
  if sch_running s then (Return tt, mk_sample_scheduler false (sch_jobs s) (sch_next s))
  else (Raise SchedulerNotRunningError, s).

Definition sample_job_remove (j : nat) (s : sample_scheduler)
  : outcome unit * sample_scheduler :=
  if existsb (λ x, Nat.eqb x.1.1 j) (sch_jobs s) then
    (Return tt,
     mk_sample_scheduler (sch_running s)
       (List.filter (λ x, negb (Nat.eqb x.1.1 j)) (sch_jobs s)) (sch_next s))
  else (Raise JobLookupError, s).

Definition sample : Collaborators := {|
  METRIC_LAST_SENT_TIME := "mlst";
  Feature := sample_feature;
  FeatureHeap := gmap string (nat * nat);
  Feature_is_enabled := sample_Feature_is_enabled;
  register_client := λ _ _ _ _ _ _, Return true;
  fetch_and_load_features := sample_fetch;
  Scheduler := sample_scheduler;
  Job := nat;
  BackgroundScheduler := mk_sample_scheduler false [] 0;
  Scheduler_start := sample_start;
  Scheduler_add_job := sample_add_job;
  Scheduler_shutdown := sample_shutdown;
  Job_remove := sample_job_remove |}.

(** A world in which a previous run left a timestamp in the cache and a
    caller holds a context dictionary at location 2. *)
Definition sample_world : @World sample :=
  mkWorld
    {[ is_enabled_default_context := ∅;
       2%positive := {[ "appName" := VStr "spoofed"; "sessionId" := VStr "N" ]} ]}
    ∅
    {[ (None, "unleash-client-python") := {[ "mlst" := VDatetime 100 ]} ]}
    2000
    []
    [].

Definition sample_client : @St sample :=
  construct "http://localhost:4242" "pytest" no_kwargs sample_world.

(** The same collaborators with a server that cannot be reached:
    [register_client] raises. *)
Definition sample_unreachable : Collaborators := {|
  METRIC_LAST_SENT_TIME := "mlst";
  Feature := sample_feature;
  FeatureHeap := gmap string (nat * nat);
  Feature_is_enabled := sample_Feature_is_enabled;
  register_client := λ _ _ _ _ _ _, Raise (OtherException "connection refused");
  fetch_and_load_features := sample_fetch;
  Scheduler := sample_scheduler;
  Job := nat;
  BackgroundScheduler := mk_sample_scheduler false [] 0;
  Scheduler_start := sample_start;
  Scheduler_add_job := sample_add_job;
  Scheduler_shutdown := sample_shutdown;
  Job_remove := sample_job_remove |}.

(** * Properties *)

(** ** The gradualRolloutSessionId strategy *)

Section GradualRolloutFacts.
Variable normalized_hash : pyval → pyval → Z.

(** With an integer percentage and the three keys present, the strategy
    returns [percentage < normalized_hash(sessionId, groupId)]. *)
Lemma GradualRolloutSessionId_call_int (parameters context : dict) (p : Z) (g sid : pyval) :
  parameters !! "percentage" = Some (VInt p) →
  parameters !! "groupId" = Some g →
  context !! "sessionId" = Some sid →
  GradualRolloutSessionId_call normalized_hash parameters (Some context)
  = Return (p <? normalized_hash sid g).
Proof.
  intros Hp Hg Hs.
  unfold GradualRolloutSessionId_call, subscript, getitem.
  rewrite Hp, Hg, Hs. reflexivity.
Qed.

(** Whenever the hash is below the percentage the strategy says no, where
    the specification's predicate says yes. *)
Lemma GradualRolloutSessionId_call_below (parameters context : dict) (p : Z) (g sid : pyval) :
  parameters !! "percentage" = Some (VInt p) →
  parameters !! "groupId" = Some g →
  context !! "sessionId" = Some sid →
  normalized_hash sid g < p →
  GradualRolloutSessionId_call normalized_hash parameters (Some context) = Return false
  ∧ spec_gradual_rollout normalized_hash p sid g = true.
Proof.
  intros Hp Hg Hs Hlt.
  rewrite (GradualRolloutSessionId_call_int _ _ _ _ _ Hp Hg Hs).
  unfold spec_gradual_rollout. split.
  - f_equal. apply Z.ltb_ge. lia.
  - apply Z.ltb_lt. exact Hlt.
Qed.

(** A missing [sessionId] is a [KeyError], not a verdict. *)
Lemma GradualRolloutSessionId_call_no_session (parameters context : dict) (p g : pyval) :
  parameters !! "percentage" = Some p →
  parameters !! "groupId" = Some g →
  context !! "sessionId" = None →
  GradualRolloutSessionId_call normalized_hash parameters (Some context)
  = Raise (KeyError "sessionId").
Proof.
  intros Hp Hg Hs.
  unfold GradualRolloutSessionId_call, subscript, getitem.
  rewrite Hp, Hg, Hs. reflexivity.
Qed.
End GradualRolloutFacts.

(** C1.  With percentage 50 and groupId "g1", a session whose normalized
    hash is 30 satisfies [normalizedHash(sessionId, groupId) < percentage],
    yet [GradualRolloutSessionId.__call__] returns [False]: the code compares
    [percentage < normalized_hash(...)], the operands the other way round. *)
Theorem GradualRolloutSessionId_false_below_percentage :
  let parameters : dict := {[ "percentage" := VInt 50; "groupId" := VStr "g1" ]} in
  let context : dict := {[ "sessionId" := VStr "N" ]} in
  checksum_normalized_hash (VStr "N") (VStr "g1") = 30
  ∧ spec_gradual_rollout checksum_normalized_hash 50 (VStr "N") (VStr "g1") = true
  ∧ GradualRolloutSessionId_call checksum_normalized_hash parameters (Some context)
    = Return false.
Proof.
  intros parameters context.
  assert (Hh : checksum_normalized_hash (VStr "N") (VStr "g1") = 30) by reflexivity.
  split; [exact Hh |].
  destruct (GradualRolloutSessionId_call_below checksum_normalized_hash
              parameters context 50 (VStr "g1") (VStr "N")) as [Hcall Hspec];
    [reflexivity | reflexivity | reflexivity | rewrite Hh; lia |].
  split; [exact Hspec | exact Hcall].
Qed.

(** ** The strategy registry *)

Lemma dict_unpack2_lookup {V} (a b : gmap string V) (k : string) :
  dict_unpack2 a b !! k = match b !! k with Some v => Some v | None => a !! k end.
Proof.
  unfold dict_unpack2. rewrite lookup_union.
  destruct (b !! k), (a !! k); reflexivity.
Qed.

Section RegistryFacts.
Context `{Collaborators}.

Lemma init_strategy_mapping (url app_name : string) (kw : init_kwargs) (w : World) :
  strategy_mapping (__init__ url app_name kw w).1
  = build_strategy_mapping (default ∅ (kw_custom_strategies kw)).
Proof. reflexivity. Qed.

(** C2, as the code has it.  Whatever custom strategies are passed to the
    constructor, a built-in name stays bound to the built-in strategy; a
    custom strategy is bound only under a name that is not a built-in's. *)
Theorem strategy_mapping_builtin_wins (url app_name : string) (kw : init_kwargs)
    (w : World) (name : string) :
  strategy_mapping (__init__ url app_name kw w).1 !! name
  = match default_strategy_mapping !! name with
    | Some builtin => Some builtin
    | None => default ∅ (kw_custom_strategies kw) !! name
    end.
Proof.
  rewrite init_strategy_mapping. unfold build_strategy_mapping.
  apply dict_unpack2_lookup.
Qed.
End RegistryFacts.

(** C2, as claimed, fails: a custom strategy registered under the built-in
    name "default" collides, and the client binds the name to the built-in
    [Default]. *)
Lemma custom_default_is_shadowed :
  let custom : gmap string strategy_class := {[ "default" := CustomStrategy "mine" ]} in
  let kw := mk_init_kwargs None None None None None None None (Some custom) None in
  let client := (__init__ (H := sample) "http://localhost:4242" "pytest" kw sample_world).1 in
  is_Some (default_strategy_mapping !! "default")
  ∧ custom !! "default" = Some (CustomStrategy "mine")
  ∧ strategy_mapping client !! "default" = Some Default
  ∧ strategy_mapping client !! "default" ≠ custom !! "default".
Proof.
  intros custom kw client.
  split; [eexists; reflexivity |].
  split; [reflexivity |].
  split; [reflexivity |].
  vm_compute. discriminate.
Qed.

(** ** is_enabled *)

Ltac unfold_methods :=
  unfold is_enabled, evaluate_feature, try_except_Exception, features_getitem,
    call_Feature_is_enabled, dict_update, LOGGER_warning, modify_world, modify_self,
    get_self, raise, lift_outcome, mbind, mret, M_bind, M_ret in *;
  simpl in *.

Section IsEnabledFacts.
Context `{Collaborators}.
Implicit Types (n : string) (c : option loc) (d : option bool) (s : St).

Lemma read_dict_after_update s l (other : dict) :
  read_dict (dict_update l other s).2.(world) l = other ∪ read_dict (world s) l.
Proof.
  unfold dict_update, modify_world, read_dict. simpl.
  rewrite lookup_insert_eq. reflexivity.
Qed.

(** [is_enabled] never assigns to an attribute of [self]. *)
Lemma is_enabled_self n c d s : self (is_enabled n c d s).2 = self s.
Proof.
  unfold_methods.
  destruct (is_initialized (self s)); simpl; [| reflexivity].
  destruct (features (self s) !! n) as [f|]; simpl; [| reflexivity].
  destruct (Feature_is_enabled _ _ _ _) as [[b|e] h]; simpl; [reflexivity |].
  destruct (isinstance_Exception e); reflexivity.
Qed.

(** The only dictionary it writes is the context, which it updates in
    place with the static context. *)
Lemma is_enabled_dicts n c d s :
  dicts (world (is_enabled n c d s).2)
  = <[default is_enabled_default_context c := evaluation_context s c]> (dicts (world s)).
Proof.
  unfold evaluation_context. unfold_methods.
  destruct (is_initialized (self s)); simpl; [| reflexivity].
  destruct (features (self s) !! n) as [f|]; simpl; [| reflexivity].
  destruct (Feature_is_enabled _ _ _ _) as [[b|e] h]; simpl; [reflexivity |].
  destruct (isinstance_Exception e); reflexivity.
Qed.

(** What [is_enabled] returns, in terms of what the feature returns on
    the updated context. *)
Lemma is_enabled_result n c d s :
  (is_enabled n c d s).1
  = if is_initialized (self s) then
      match features (self s) !! n with
      | Some f =>
          or_default (default false d)
            (Feature_is_enabled f (evaluation_context s c) (default false d)
               (feature_heap (world s))).1
      | None => Return (default false d)
      end
    else Return (default false d).
Proof.
  unfold evaluation_context, or_default. unfold_methods.
  destruct (is_initialized (self s)); simpl; [| reflexivity].
  destruct (features (self s) !! n) as [f|]; simpl; [| reflexivity].
  unfold read_dict at 1. simpl. rewrite lookup_insert_eq. simpl.
  destruct (Feature_is_enabled _ _ _ _) as [[b|e] h]; simpl; [reflexivity |].
  destruct (isinstance_Exception e); reflexivity.
Qed.

(** The outcome of the expression under [try], run after the update. *)
Lemma evaluate_feature_result n l (dv : bool) s :
  (evaluate_feature n l dv s).1
  = match features (self s) !! n with
    | Some f => (Feature_is_enabled f (read_dict (world s) l) dv (feature_heap (world s))).1
    | None => Raise (KeyError n)
    end.
Proof.
  unfold_methods.
  destruct (features (self s) !! n) as [f|]; simpl; [| reflexivity].
  destruct (Feature_is_enabled _ _ _ _) as [r h]; reflexivity.
Qed.

(** C3, as the code has it.  On an initialized client, when looking the
    feature up or evaluating it raises an instance of [Exception], which is
    what [except Exception] matches, [is_enabled] returns the default value
    instead of raising, and the client's [features] mapping is the one it
    was before the call. *)
Theorem is_enabled_exception_returns_default n c d s (e : exn) :
  let l := default is_enabled_default_context c in
  is_initialized (self s) = true →
  (evaluate_feature n l (default false d)
     (dict_update l (unleash_static_context (self s)) s).2).1 = Raise e →
  isinstance_Exception e = true →
  (is_enabled n c d s).1 = Return (default false d)
  ∧ features (self (is_enabled n c d s).2) = features (self s).
Proof.
  intros l Hinit Hraise Hexc.
  split; [| rewrite is_enabled_self; reflexivity].
  rewrite is_enabled_result, Hinit.
  rewrite evaluate_feature_result in Hraise.
  rewrite read_dict_after_update in Hraise.
  change (self (dict_update l (unleash_static_context (self s)) s).2) with (self s) in Hraise.
  change (feature_heap (world (dict_update l (unleash_static_context (self s)) s).2))
    with (feature_heap (world s)) in Hraise.
  destruct (features (self s) !! n) as [f|]; [| reflexivity].
  unfold evaluation_context. fold l. rewrite Hraise.
  unfold or_default. rewrite Hexc. reflexivity.
Qed.

(** C4.  On a client that is not initialized, [is_enabled] returns the
    default value, for every feature name and context. *)
Theorem is_enabled_uninitialized_returns_default n c d s :
  is_initialized (self s) = false →
  (is_enabled n c d s).1 = Return (default false d).
Proof.
  intros Hinit. rewrite is_enabled_result, Hinit. reflexivity.
Qed.

(** C5.  On an initialized client, a feature name that is not a key of
    [features] makes [is_enabled] return the default value; it returns,
    it does not raise. *)
Theorem is_enabled_unknown_feature_returns_default n c d s :
  is_initialized (self s) = true →
  features (self s) !! n = None →
  (is_enabled n c d s).1 = Return (default false d).
Proof.
  intros Hinit Hnone. rewrite is_enabled_result, Hinit, Hnone. reflexivity.
Qed.
End IsEnabledFacts.

(** ** initialize_client and destroy *)

Ltac unfold_lifecycle :=
  unfold initialize_client, destroy, remove_method, cache_delete, call_register_client,
    call_fetch_and_load_features, fetch_on_client, on_scheduler, modify_world, modify_self,
    get_self, raise, lift_outcome, mbind, mret, M_bind, M_ret in *;
  simpl in *.

(** Case analysis on what the next collaborator called in the goal does. *)
Ltac case_collaborator :=
  match goal with
  | |- context [register_client ?a ?b ?c ?d ?e ?f] =>
      destruct (register_client a b c d e f) as [?|?] eqn:?
  | |- context [fetch_and_load_features ?a ?b] =>
      destruct (fetch_and_load_features a b) as [[[]|?] ?] eqn:?
  | |- context [Scheduler_start ?a] =>
      destruct (Scheduler_start a) as [[[]|?] ?] eqn:?
  | |- context [Scheduler_add_job ?a ?b ?c] =>
      destruct (Scheduler_add_job a b c) as [[?|?] ?] eqn:?
  | |- context [Scheduler_shutdown ?a] =>
      destruct (Scheduler_shutdown a) as [[[]|?] ?] eqn:?
  | |- context [Job_remove ?a ?b] =>
      destruct (Job_remove a b) as [[[]|?] ?] eqn:?
  | |- context [FileCache_delete ?a ?b] =>
      unfold FileCache_delete; destruct (b !! fc_path a) eqn:?
  end; simpl in *.

Section LifecycleFacts.
Context `{Collaborators}.
Implicit Types (s : St) (w : World).

(** Each call sends its requests afresh: there is no test of
    [is_initialized] in front of them. *)
Lemma initialize_client_calls s :
  calls (world (initialize_client s).2) = calls (world s) ++ initial_requests (self s).
Proof.
  unfold initial_requests. unfold_lifecycle.
  destruct (unleash_disable_registration (self s)),
    (unleash_disable_metrics (self s)); simpl;
    repeat case_collaborator; rewrite <- ?app_assoc; reflexivity.
Qed.

Lemma initial_requests_nonempty (c : UnleashClient) : initial_requests c ≠ [].
Proof.
  unfold initial_requests.
  destruct (unleash_disable_registration c); discriminate.
Qed.

Lemma initialize_client_configuration s :
  configuration (self (initialize_client s).2) = configuration (self s).
Proof.
  unfold configuration. unfold_lifecycle.
  destruct (unleash_disable_registration (self s)) eqn:Hr,
    (unleash_disable_metrics (self s)) eqn:Hm; simpl;
    repeat case_collaborator; rewrite ?Hr, ?Hm; reflexivity.
Qed.

Lemma destroy_configuration s :
  configuration (self (destroy s).2) = configuration (self s).
Proof.
  unfold configuration. unfold_lifecycle.
  destruct (fl_job (self s)) as [j|]; simpl; [| reflexivity].
  case_collaborator; [| reflexivity].
  destruct (metric_job (self s)) as [j'|]; simpl;
    repeat case_collaborator; reflexivity.
Qed.

(** With no fetch job, [destroy] stops at its first statement. *)
Lemma destroy_without_fl_job s :
  fl_job (self s) = None → destroy s = (Raise (AttributeError "remove"), s).
Proof.
  intros Hnone. unfold_lifecycle. rewrite Hnone. simpl.
  destruct s; reflexivity.
Qed.

(** A call that returns has stored the fetch job and set the flag. *)
Lemma initialize_client_returned s :
  (initialize_client s).1 = Return tt →
  is_Some (fl_job (self (initialize_client s).2))
  ∧ is_initialized (self (initialize_client s).2) = true.
Proof.
  unfold_lifecycle.
  destruct (unleash_disable_registration (self s)),
    (unleash_disable_metrics (self s)); simpl;
    repeat case_collaborator; intros Hret; try discriminate;
    (split; [eexists; reflexivity | reflexivity]).
Qed.

(** When the scheduler does not start, the call raises before it
    schedules anything. *)
Lemma initialize_client_start_refused s (e : exn) :
  (Scheduler_start (scheduler (self s))).1 = Raise e →
  (initialize_client s).1 ≠ Return tt
  ∧ fl_job (self (initialize_client s).2) = fl_job (self s)
  ∧ metric_job (self (initialize_client s).2) = metric_job (self s)
  ∧ is_initialized (self (initialize_client s).2) = is_initialized (self s).
Proof.
  unfold_lifecycle.
  destruct (unleash_disable_registration (self s)); simpl;
    repeat case_collaborator; intros Hstart;
    try discriminate; repeat split; try reflexivity; discriminate.
Qed.

Lemma run_step_configuration (st : step) s :
  configuration (self (run_step st s)) = configuration (self s).
Proof.
  destruct st; simpl.
  - apply initialize_client_configuration.
  - apply destroy_configuration.
  - rewrite is_enabled_self. reflexivity.
  - reflexivity.
Qed.

Lemma run_configuration (history : list step) s :
  configuration (self (run history s)) = configuration (self s).
Proof.
  revert s. induction history as [|st history IH]; intros s.
  - reflexivity.
  - change (run (st :: history) s) with (run history (run_step st s)).
    rewrite IH. apply run_step_configuration.
Qed.

Lemma construct_self (url app_name : string) (kw : init_kwargs) w :
  self (construct url app_name kw w) = (__init__ url app_name kw w).1.
Proof. reflexivity. Qed.

Lemma run_static_context (url app_name : string) (kw : init_kwargs) w (history : list step) :
  unleash_static_context (self (run history (construct url app_name kw w)))
  = {[ "appName" := VStr app_name;
       "environment" := VStr (default "default" (kw_environment kw)) ]}.
Proof.
  pose proof (run_configuration history (construct url app_name kw w)) as Hc.
  unfold configuration in Hc. injection Hc as _ _ _ _ _ _ _ _ _ Hs _.
  rewrite Hs. reflexivity.
Qed.

(** Only [initialize_client] assigns [fl_job]. *)
Lemma run_without_initialize_fl_job (history : list step) s :
  forallb (λ st, negb (is_initialize_client st)) history = true →
  fl_job (self s) = None →
  fl_job (self (run history s)) = None.
Proof.
  revert s. induction history as [|st history IH]; intros s Hall Hnone.
  - exact Hnone.
  - change (run (st :: history) s) with (run history (run_step st s)).
    simpl in Hall. apply andb_prop in Hall as [Hst Hall].
    apply IH; [exact Hall |].
    destruct st; simpl in *; try discriminate.
    + rewrite destroy_without_fl_job by exact Hnone. exact Hnone.
    + rewrite is_enabled_self. exact Hnone.
    + exact Hnone.
Qed.
End LifecycleFacts.

(** ** The context dictionary *)

Section ContextFacts.
Context `{Collaborators}.
Implicit Types (s : St) (w : World).

Lemma static_union_inserts (a e : pyval) (m : dict) :
  ({[ "appName" := a; "environment" := e ]} : dict) ∪ m
  = <["appName" := a]> (<["environment" := e]> m).
Proof.
  rewrite <- insert_union_l. f_equal.
  rewrite insert_union_singleton_l. reflexivity.
Qed.

Lemma run_names (url app_name : string) (kw : init_kwargs) w (history : list step) :
  unleash_app_name (self (run history (construct url app_name kw w))) = app_name
  ∧ unleash_environment (self (run history (construct url app_name kw w)))
    = default "default" (kw_environment kw).
Proof.
  pose proof (run_configuration history (construct url app_name kw w)) as Hc.
  unfold configuration in Hc. injection Hc as _ Ha He _ _ _ _ _ _ _ _.
  rewrite Ha, He. split; reflexivity.
Qed.

(** On a client built by the constructor, the dictionary the feature is
    evaluated on is the caller's with both static keys overwritten. *)
Lemma evaluation_context_inserts (url app_name : string) (kw : init_kwargs) w
    (history : list step) (c : option loc) :
  let s := run history (construct url app_name kw w) in
  evaluation_context s c
  = <["appName" := VStr (unleash_app_name (self s))]>
      (<["environment" := VStr (unleash_environment (self s))]>
         (read_dict (world s) (default is_enabled_default_context c))).
Proof.
  intros s. unfold evaluation_context. subst s.
  rewrite run_static_context.
  destruct (run_names url app_name kw w history) as [-> ->].
  apply static_union_inserts.
Qed.

Lemma read_dict_after_is_enabled (n : string) (c : option loc) (d : option bool) s :
  read_dict (world (is_enabled n c d s).2) (default is_enabled_default_context c)
  = evaluation_context s c.
Proof.
  unfold read_dict at 1. rewrite is_enabled_dicts, lookup_insert_eq. reflexivity.
Qed.

Lemma initialize_client_dicts s : dicts (world (initialize_client s).2) = dicts (world s).
Proof.
  unfold_lifecycle.
  destruct (unleash_disable_registration (self s)),
    (unleash_disable_metrics (self s)); simpl;
    repeat case_collaborator; reflexivity.
Qed.

Lemma destroy_dicts s : dicts (world (destroy s).2) = dicts (world s).
Proof.
  unfold_lifecycle.
  destruct (fl_job (self s)) as [j|]; simpl; [| reflexivity].
  case_collaborator; [| reflexivity].
  destruct (metric_job (self s)) as [j'|]; simpl;
    repeat case_collaborator; reflexivity.
Qed.

(** Once a dictionary holds the static values of a client, calls of that
    client's methods leave them there. *)
Lemma run_methods_keep_static (history : list step) s (l : loc) (k : string) (v : pyval) :
  forallb is_method history = true →
  unleash_static_context (self s) !! k = Some v →
  read_dict (world s) l !! k = Some v →
  read_dict (world (run history s)) l !! k = Some v.
Proof.
  revert s. induction history as [|st history IH]; intros s Hall Hstatic Hread.
  - exact Hread.
  - change (run (st :: history) s) with (run history (run_step st s)).
    simpl in Hall. apply andb_prop in Hall as [Hst Hall].
    apply IH; [exact Hall | |].
    + pose proof (run_step_configuration st s) as Hc.
      unfold configuration in Hc. injection Hc as _ _ _ _ _ _ _ _ _ Hs _.
      rewrite Hs. exact Hstatic.
    + destruct st as [| |n c d|f]; simpl in *; try discriminate.
      * unfold read_dict. rewrite initialize_client_dicts. exact Hread.
      * unfold read_dict. rewrite destroy_dicts. exact Hread.
      * unfold read_dict. rewrite is_enabled_dicts.
        destruct (decide (default is_enabled_default_context c = l)) as [<-|Hne].
        -- rewrite lookup_insert_eq. simpl. unfold evaluation_context.
           apply lookup_union_Some_l. exact Hstatic.
        -- rewrite lookup_insert_ne by exact Hne. exact Hread.
Qed.
End ContextFacts.

(** ** The claims about the client *)

Section ClientClaims.
Context `{Collaborators}.
Implicit Types (s : St) (w : World).

(** C6.  In every call to [is_enabled] on a client built by the
    constructor, the dictionary the feature is evaluated on is the
    caller's dictionary with "appName" and "environment" overwritten by
    the client's app name and environment, whatever the caller had put
    under those keys; the value returned is the feature's verdict on that
    dictionary. *)
Theorem is_enabled_static_context_wins (url app_name : string) (kw : init_kwargs) w
    (history : list step) (n : string) (c : option loc) (d : option bool) :
  let s := run history (construct url app_name kw w) in
  let used := evaluation_context s c in
  unleash_app_name (self s) = app_name
  ∧ unleash_environment (self s) = default "default" (kw_environment kw)
  ∧ used = <["appName" := VStr (unleash_app_name (self s))]>
             (<["environment" := VStr (unleash_environment (self s))]>
                (read_dict (world s) (default is_enabled_default_context c)))
  ∧ used !! "appName" = Some (VStr (unleash_app_name (self s)))
  ∧ used !! "environment" = Some (VStr (unleash_environment (self s)))
  ∧ (is_enabled n c d s).1
    = if is_initialized (self s) then
        match features (self s) !! n with
        | Some f =>
            or_default (default false d)
              (Feature_is_enabled f used (default false d) (feature_heap (world s))).1
        | None => Return (default false d)
        end
      else Return (default false d).
Proof.
  intros s used.
  destruct (run_names url app_name kw w history) as [Ha He].
  pose proof (evaluation_context_inserts url app_name kw w history c) as Hused.
  cbv zeta in Hused. fold s in Ha, He, Hused. fold used in Hused.
  split; [exact Ha |]. split; [exact He |]. split; [exact Hused |].
  split; [rewrite Hused; apply lookup_insert_eq |].
  split; [rewrite Hused, lookup_insert_ne by discriminate; apply lookup_insert_eq |].
  apply is_enabled_result.
Qed.

Lemma initial_requests_configuration (c c' : UnleashClient) :
  configuration c = configuration c' → initial_requests c = initial_requests c'.
Proof.
  unfold configuration. intros Hc.
  injection Hc as Hu Ha _ Hi _ Hm _ Hr Hh _ Hs.
  unfold initial_requests. rewrite Hu, Ha, Hi, Hm, Hr, Hh, Hs. reflexivity.
Qed.

(** C7, as the code has it.  [initialize_client] does not test
    [is_initialized]: a second call sends the same requests once more
    (registration unless disabled, then the first fetch), so the state
    after two calls differs from the state after one.  If the scheduler
    refuses to be started again, the second call raises at that point,
    and it leaves [fl_job], [metric_job] and [is_initialized] as they
    were. *)
Theorem initialize_client_twice_repeats_requests s :
  let s1 := (initialize_client s).2 in
  let s2 := (initialize_client s1).2 in
  calls (world s1) = calls (world s) ++ initial_requests (self s)
  ∧ calls (world s2) = calls (world s1) ++ initial_requests (self s)
  ∧ initial_requests (self s) ≠ []
  ∧ s2 ≠ s1
  ∧ ∀ e : exn,
      (Scheduler_start (scheduler (self s1))).1 = Raise e →
      (initialize_client s1).1 ≠ Return tt
      ∧ fl_job (self s2) = fl_job (self s1)
      ∧ metric_job (self s2) = metric_job (self s1)
      ∧ is_initialized (self s2) = is_initialized (self s1).
Proof.
  intros s1 s2.
  assert (Hreq : initial_requests (self s1) = initial_requests (self s)).
  { apply initial_requests_configuration, initialize_client_configuration. }
  assert (H2 : calls (world s2) = calls (world s1) ++ initial_requests (self s)).
  { subst s2. rewrite initialize_client_calls, Hreq. reflexivity. }
  split; [apply initialize_client_calls |].
  split; [exact H2 |].
  split; [apply initial_requests_nonempty |].
  split.
  - intros Heq. rewrite Heq in H2.
    apply (f_equal length) in H2. rewrite length_app in H2.
    pose proof (initial_requests_nonempty (self s)) as Hne.
    destruct (initial_requests (self s)); [congruence | simpl in H2; lia].
  - intros e He. apply (initialize_client_start_refused s1 e He).
Qed.

(** C8.  The constructor writes the current time under
    [METRIC_LAST_SENT_TIME] and syncs: afterwards the write buffer is
    empty and the entry on disk is the current time, whatever was
    persisted under that key before. *)
Theorem init_resets_metric_last_sent_time (url app_name : string) (kw : init_kwargs) w :
  let path := (kw_cache_directory kw, default "unleash-client-python" (kw_instance_id kw)) in
  let client := (__init__ url app_name kw w).1 in
  let w' := (__init__ url app_name kw w).2 in
  fc_path (cache client) = path
  ∧ fc_buffer (cache client) = ∅
  ∧ persisted (files w') path METRIC_LAST_SENT_TIME = Some (VDatetime (clock w)).
Proof.
  intros path client w'.
  split; [reflexivity |]. split; [reflexivity |].
  subst w' path. unfold persisted, __init__, FileCache_sync, FileCache_new,
    FileCache_setitem, set_files. simpl.
  rewrite lookup_insert_eq. simpl.
  apply lookup_union_Some_l, lookup_insert_eq.
Qed.

(** C9.  [is_enabled] writes into the caller's dictionary itself: after
    the call that dictionary is the one it was with "appName" and
    "environment" set to the client's static values, and it keeps them
    through every later call of the client's methods.  A call that omits
    [context] does this to the one dictionary all such calls share. *)
Theorem is_enabled_mutates_context (url app_name : string) (kw : init_kwargs) w
    (history later : list step) (n : string) (c : option loc) (d : option bool) :
  let s := run history (construct url app_name kw w) in
  let l := default is_enabled_default_context c in
  let s1 := (is_enabled n c d s).2 in
  (c = None → l = is_enabled_default_context)
  ∧ read_dict (world s1) l
    = <["appName" := VStr app_name]>
        (<["environment" := VStr (default "default" (kw_environment kw))]>
           (read_dict (world s) l))
  ∧ (forallb is_method later = true →
     read_dict (world (run later s1)) l !! "appName" = Some (VStr app_name)
     ∧ read_dict (world (run later s1)) l !! "environment"
       = Some (VStr (default "default" (kw_environment kw)))).
Proof.
  intros s l s1.
  split; [intros ->; reflexivity |].
  pose proof (read_dict_after_is_enabled n c d s) as Hread.
  pose proof (evaluation_context_inserts url app_name kw w history c) as Hused.
  destruct (run_names url app_name kw w history) as [Ha He].
  cbv zeta in Hused. fold s in Hused, Ha, He. fold l s1 in Hread. fold l in Hused.
  rewrite Ha, He in Hused. rewrite Hused in Hread.
  split; [exact Hread |].
  intros Hlater.
  assert (Hstatic : unleash_static_context (self s1)
                    = {[ "appName" := VStr app_name;
                         "environment" := VStr (default "default" (kw_environment kw)) ]}).
  { subst s1. rewrite is_enabled_self. apply run_static_context. }
  split; apply run_methods_keep_static; try exact Hlater.
  - rewrite Hstatic. apply lookup_insert_eq.
  - rewrite Hread. apply lookup_insert_eq.
  - rewrite Hstatic, lookup_insert_ne by discriminate. apply lookup_insert_eq.
  - rewrite Hread, lookup_insert_ne by discriminate. apply lookup_insert_eq.
Qed.

(** C10.  On a client on which [initialize_client] was never called,
    [fl_job] is still [None], and [destroy] raises [AttributeError] at
    [self.fl_job.remove()] without having done anything; a call of
    [initialize_client] that returns is what sets [fl_job] to a job. *)
Theorem destroy_before_initialize_raises (url app_name : string) (kw : init_kwargs) w
    (history : list step) :
  forallb (λ st, negb (is_initialize_client st)) history = true →
  let s := run history (construct url app_name kw w) in
  fl_job (self s) = None
  ∧ destroy s = (Raise (AttributeError "remove"), s)
  ∧ ∀ s0 : St,
      (initialize_client s0).1 = Return tt →
      is_Some (fl_job (self (initialize_client s0).2)).
Proof.
  intros Hno s.
  assert (Hnone : fl_job (self s) = None).
  { apply run_without_initialize_fl_job; [exact Hno | reflexivity]. }
  split; [exact Hnone |].
  split; [apply destroy_without_fl_job; exact Hnone |].
  intros s0 Hret. apply (initialize_client_returned s0 Hret).
Qed.
End ClientClaims.

(** ** The claims on the sample client *)

(** The sample client after one [initialize_client]. *)
Lemma sample_initialized :
  (initialize_client sample_client).1 = Return tt
  ∧ is_initialized (self (initialize_client sample_client).2) = true.
Proof. split; reflexivity. Qed.

(** The timestamp 100 of an earlier run is gone after construction. *)
Lemma sample_client_discards_old_timestamp :
  persisted (files sample_world) (None, "unleash-client-python") "mlst" = Some (VDatetime 100)
  ∧ persisted (files (world sample_client)) (None, "unleash-client-python") "mlst"
    = Some (VDatetime 2000).
Proof. split; reflexivity. Qed.

(** C3, as claimed, fails: on an initialized client whose feature "stop" is
    interrupted during evaluation, the evaluation raises
    [KeyboardInterrupt], which is not an instance of [Exception], and
    [is_enabled] raises it to the caller instead of returning the default
    value. *)
Lemma is_enabled_lets_KeyboardInterrupt_through :
  let stop := mk_sample_feature "stop" true [Strategy_custom_failing KeyboardInterrupt] in
  let s0 := (initialize_client sample_client).2 in
  let s := mkSt (set_features (<["stop" := stop]> (features (self s0))) (self s0)) (world s0) in
  let l := is_enabled_default_context in
  is_initialized (self s) = true
  ∧ (evaluate_feature "stop" l true
       (dict_update l (unleash_static_context (self s)) s).2).1
    = Raise KeyboardInterrupt
  ∧ (is_enabled "stop" None (Some true) s).1 = Raise KeyboardInterrupt
  ∧ (is_enabled "stop" None (Some true) s).1 ≠ Return true.
Proof.
  intros stop s0 s l.
  split; [reflexivity |]. split; [reflexivity |].
  assert (Hres : (is_enabled "stop" None (Some true) s).1 = Raise KeyboardInterrupt)
    by reflexivity.
  split; [exact Hres |]. rewrite Hres. discriminate.
Qed.

(** C3 on the feature "broken", whose strategy raises. *)
Lemma is_enabled_exception_returns_default_witness :
  let s := (initialize_client sample_client).2 in
  (evaluate_feature "broken" 2%positive true
     (dict_update 2%positive (unleash_static_context (self s)) s).2).1
  = Raise (OtherException "boom")
  ∧ (is_enabled "broken" (Some 2%positive) (Some true) s).1 = Return true
  ∧ features (self (is_enabled "broken" (Some 2%positive) (Some true) s).2)
    = features (self s).
Proof.
  intros s. split; [reflexivity |].
  apply (is_enabled_exception_returns_default (H := sample)
           "broken" (Some 2%positive) (Some true) s (OtherException "boom"));
    reflexivity.
Defined.

(** C4 on the sample client before [initialize_client]. *)
Lemma is_enabled_uninitialized_returns_default_witness :
  is_initialized (self sample_client) = false
  ∧ (is_enabled "gamma" None (Some true) sample_client).1 = Return true.
Proof.
  split; [reflexivity |].
  apply (is_enabled_uninitialized_returns_default (H := sample)
           "gamma" None (Some true) sample_client).
  reflexivity.
Defined.

(** C5 on a name the fetched feature set does not have. *)
Lemma is_enabled_unknown_feature_returns_default_witness :
  let s := (initialize_client sample_client).2 in
  features (self s) !! "delta" = None
  ∧ (is_enabled "delta" (Some 2%positive) (Some true) s).1 = Return true.
Proof.
  intros s. split; [reflexivity |].
  apply (is_enabled_unknown_feature_returns_default (H := sample)
           "delta" (Some 2%positive) (Some true) s); reflexivity.
Defined.

(** C7, as claimed, fails: on the sample client the second call sends
    registration and fetch a second time and then raises, so the state
    after two calls is not the state after one. *)
Lemma initialize_client_not_idempotent :
  let s1 := (initialize_client sample_client).2 in
  let s2 := (initialize_client s1).2 in
  (initialize_client sample_client).1 = Return tt
  ∧ (initialize_client s1).1 = Raise SchedulerAlreadyRunningError
  ∧ length (calls (world s1)) = 2%nat
  ∧ calls (world s2) = calls (world s1) ++ calls (world s1)
  ∧ s2 ≠ s1.
Proof.
  intros s1 s2.
  split; [reflexivity |]. split; [reflexivity |]. split; [reflexivity |].
  split; [reflexivity |].
  intros Heq. apply (f_equal (λ s, length (calls (world s)))) in Heq.
  vm_compute in Heq. discriminate.
Qed.

(** C7 where the scheduler refuses the second start. *)
Lemma initialize_client_twice_repeats_requests_witness :
  let s1 := (initialize_client sample_client).2 in
  let s2 := (initialize_client s1).2 in
  (Scheduler_start (scheduler (self s1))).1 = Raise SchedulerAlreadyRunningError
  ∧ (initialize_client s1).1 ≠ Return tt
  ∧ fl_job (self s2) = fl_job (self s1)
  ∧ metric_job (self s2) = metric_job (self s1)
  ∧ is_initialized (self s2) = is_initialized (self s1).
Proof.
  intros s1 s2. split; [reflexivity |].
  destruct (initialize_client_twice_repeats_requests (H := sample) sample_client)
    as (_ & _ & _ & _ & Hrefused).
  apply (Hrefused SchedulerAlreadyRunningError). reflexivity.
Defined.

(** C9 on the shared default dictionary: the static values are still in it
    after two further calls. *)
Lemma is_enabled_mutates_context_witness :
  let later := [Do_is_enabled "beta" (Some 2%positive) None; Do_initialize_client] in
  let s1 := (is_enabled "beta" None None sample_client).2 in
  forallb is_method later = true
  ∧ read_dict (world (run later s1)) is_enabled_default_context !! "appName"
    = Some (VStr "pytest")
  ∧ read_dict (world (run later s1)) is_enabled_default_context !! "environment"
    = Some (VStr "default").
Proof.
  intros later s1. split; [reflexivity |].
  destruct (is_enabled_mutates_context (H := sample) "http://localhost:4242" "pytest"
              no_kwargs sample_world [] later "beta" None None) as (_ & _ & Hlater).
  apply Hlater. reflexivity.
Defined.

(** C10 on the sample client after a call of [is_enabled] and a first,
    failed [destroy]. *)
Lemma destroy_before_initialize_raises_witness :
  let history := [Do_is_enabled "beta" None None; Do_destroy] in
  let s := run history sample_client in
  forallb (λ st, negb (is_initialize_client st)) history = true
  ∧ fl_job (self s) = None
  ∧ destroy s = (Raise (AttributeError "remove"), s)
  ∧ is_Some (fl_job (self (initialize_client sample_client).2)).
Proof.
  intros history s. split; [reflexivity |].
  destruct (destroy_before_initialize_raises (H := sample) "http://localhost:4242" "pytest"
              no_kwargs sample_world history eq_refl) as (Hnone & Hraise & Hset).
  split; [exact Hnone |]. split; [exact Hraise |].
  apply (Hset sample_client). reflexivity.
Defined.

(** ** The URL kept by the constructor *)

Lemma append_nil_l (s : string) : "" +:+ s = s.
Proof. reflexivity. Qed.

Lemma append_cons (a : ascii) (s t : string) : String a s +:+ t = String a (s +:+ t).
Proof. reflexivity. Qed.

Lemma rstrip_split (chars : list ascii) (s : string) :
  ∃ suffix : string,
    s = rstrip chars s +:+ suffix ∧ Forall (λ a, a ∈ chars) (list_ascii_of_string suffix).
Proof.
  induction s as [|a rest (suffix & Hrest & Hall)]; simpl.
  - exists EmptyString. split; [reflexivity | constructor].
  - destruct (rstrip chars rest) as [|b kept] eqn:Hkept.
    + rewrite append_nil_l in Hrest. subst suffix. case_bool_decide as Ha.
      * exists (String a rest). split; [reflexivity |]. simpl. constructor; assumption.
      * exists rest. split; [reflexivity | assumption].
    + exists suffix. split; [| assumption].
      rewrite append_cons. rewrite Hrest at 1. reflexivity.
Qed.

Lemma rstrip_last_kept (chars : list ascii) (s front : string) (a : ascii) :
  rstrip chars s = front +:+ String a EmptyString → a ∉ chars.
Proof.
  revert front. induction s as [|b rest IH]; intros front Heq; simpl in Heq.
  - destruct front; discriminate.
  - destruct (rstrip chars rest) as [|c kept] eqn:Hkept.
    + case_bool_decide as Hb.
      * destruct front; discriminate.
      * destruct front as [|x [|y front]]; try discriminate.
        rewrite append_nil_l in Heq. injection Heq as ->. exact Hb.
    + destruct front as [|x front]; [discriminate |].
      rewrite append_cons in Heq. injection Heq as _ Heq. apply (IH front). exact Heq.
Qed.

Lemma rstrip_keeps_other_ending (chars : list ascii) (front : string) (a : ascii) :
  a ∉ chars →
  rstrip chars (front +:+ String a EmptyString) = front +:+ String a EmptyString.
Proof.
  intros Ha. induction front as [|b front IH].
  - rewrite append_nil_l. simpl. case_bool_decide; [contradiction | reflexivity].
  - rewrite append_cons. simpl. rewrite IH. destruct front; reflexivity.
Qed.

Section ConstructorFacts.
Context `{Collaborators}.
Implicit Types (s : St) (w : World).

(** X1.  The URL the constructor keeps is the given URL without its
    trailing backslashes: what was cut off is backslashes only, and what is
    kept does not end in one. *)
Theorem init_url_strips_trailing_backslashes (url app_name : string) (kw : init_kwargs) w :
  let stored := unleash_url (__init__ url app_name kw w).1 in
  (∃ suffix : string,
     url = stored +:+ suffix
     ∧ Forall (λ a, a = "\"%char) (list_ascii_of_string suffix))
  ∧ ¬ (∃ front : string, stored = front +:+ "\").
Proof.
  intros stored. split.
  - destruct (rstrip_split ["\"%char] url) as (suffix & Hsplit & Hall).
    exists suffix. split; [exact Hsplit |].
    eapply Forall_impl; [exact Hall |]. intros a Ha. simpl in Ha.
    apply list_elem_of_singleton in Ha. exact Ha.
  - intros (front & Hfront).
    apply (rstrip_last_kept ["\"%char] url front "\"%char Hfront).
    apply list_elem_of_singleton. reflexivity.
Qed.

(** X2.  A URL whose last character is not a backslash is kept as given;
    in particular a trailing forward slash is not removed. *)
Theorem init_url_keeps_other_ending (front : string) (a : ascii) (app_name : string)
    (kw : init_kwargs) w :
  a ≠ "\"%char →
  unleash_url (__init__ (front +:+ String a EmptyString) app_name kw w).1
  = front +:+ String a EmptyString.
Proof.
  intros Ha. apply rstrip_keeps_other_ending.
  intros Hin. apply list_elem_of_singleton in Hin. contradiction.
Qed.

(** X3.  The names the client knows a strategy for are the seven built-in
    names together with the names of the custom strategies. *)
Theorem init_strategy_names (url app_name : string) (kw : init_kwargs) w :
  dom (strategy_mapping (__init__ url app_name kw w).1)
  = dom (default ∅ (kw_custom_strategies kw) : gmap string strategy_class)
    ∪ {[ "applicationHostname"; "default"; "gradualRolloutRandom";
         "gradualRolloutSessionId"; "gradualRolloutUserId"; "remoteAddress";
         "userWithId" ]}.
Proof.
  rewrite init_strategy_mapping. unfold build_strategy_mapping, dict_unpack2.
  rewrite dom_union_L. unfold default_strategy_mapping.
  rewrite !dom_insert_L, dom_singleton_L.
  rewrite (comm_L (∪) _ (dom (default ∅ (kw_custom_strategies kw)))).
  reflexivity.
Qed.


(** X5.  The attributes the constructor sets from its arguments keep those
    values for the life of the client, with the defaults "default",
    "unleash-client-python", 15, 60, False, False, {} and {} for omitted
    arguments. *)
Theorem configuration_is_fixed (url app_name : string) (kw : init_kwargs) w
    (history : list step) :
  configuration (self (run history (construct url app_name kw w)))
  = (rstrip ["\"%char] url, app_name, default "default" (kw_environment kw),
     default "unleash-client-python" (kw_instance_id kw),
     default 15 (kw_refresh_interval kw), default 60 (kw_metrics_interval kw),
     default false (kw_disable_metrics kw), default false (kw_disable_registration kw),
     default ∅ (kw_custom_headers kw),
     {[ "appName" := VStr app_name;
        "environment" := VStr (default "default" (kw_environment kw)) ]},
     build_strategy_mapping (default ∅ (kw_custom_strategies kw))).
Proof.
  rewrite run_configuration. reflexivity.
Qed.
End ConstructorFacts.

Section IsEnabledExtras.
Context `{Collaborators}.
Implicit Types (n : string) (c : option loc) (d : option bool) (s : St).

Lemma run_without_initialize_fresh (history : list step) s :
  forallb (λ st, negb (is_initialize_client st)) history = true →
  fl_job (self s) = None →
  is_initialized (self (run history s)) = is_initialized (self s)
  ∧ features (self (run history s)) = features (self s).
Proof.
  revert s. induction history as [|st history IH]; intros s Hall Hnone.
  - split; reflexivity.
  - change (run (st :: history) s) with (run history (run_step st s)).
    simpl in Hall. apply andb_prop in Hall as [Hst Hall].
    assert (Hself : self (run_step st s) = self s).
    { destruct st; simpl in *; try discriminate.
      - rewrite destroy_without_fl_job by exact Hnone. reflexivity.
      - apply is_enabled_self.
      - reflexivity. }
    destruct (IH (run_step st s) Hall) as [Hi Hf].
    + rewrite Hself. exact Hnone.
    + rewrite Hi, Hf, Hself. split; reflexivity.
Qed.

(** X6.  From construction until the first call of [initialize_client],
    whatever else is called, the client is not initialized, holds no
    features, and [is_enabled] returns the default value. *)
Theorem default_until_initialize_client (url app_name : string) (kw : init_kwargs)
    (w : World) (history : list step) n c d :
  forallb (λ st, negb (is_initialize_client st)) history = true →
  let s := run history (construct url app_name kw w) in
  is_initialized (self s) = false
  ∧ features (self s) = ∅
  ∧ (is_enabled n c d s).1 = Return (default false d).
Proof.
  intros Hno s.
  destruct (run_without_initialize_fresh history (construct url app_name kw w) Hno eq_refl)
    as [Hi Hf].
  fold s in Hi, Hf.
  assert (Hinit : is_initialized (self s) = false) by (rewrite Hi; reflexivity).
  split; [exact Hinit |]. split; [rewrite Hf; reflexivity |].
  rewrite is_enabled_result, Hinit. reflexivity.
Qed.

(** X7.  [is_enabled] leaves the client object, the requests sent, the
    cache directories and the clock as they are, and of the callers'
    dictionaries it writes none but the context it was given. *)
Theorem is_enabled_frame n c d s :
  let s' := (is_enabled n c d s).2 in
  let l := default is_enabled_default_context c in
  self s' = self s
  ∧ calls (world s') = calls (world s)
  ∧ files (world s') = files (world s)
  ∧ clock (world s') = clock (world s)
  ∧ delete l (dicts (world s')) = delete l (dicts (world s)).
Proof.
  intros s' l. subst s'.
  assert (Hworld : calls (world (is_enabled n c d s).2) = calls (world s)
                   ∧ files (world (is_enabled n c d s).2) = files (world s)
                   ∧ clock (world (is_enabled n c d s).2) = clock (world s)).
  { unfold_methods.
    destruct (is_initialized (self s)); simpl; [| repeat split].
    destruct (features (self s) !! n) as [f|]; simpl; [| repeat split].
    destruct (Feature_is_enabled _ _ _ _) as [[b|e] h]; simpl; [repeat split |].
    destruct (isinstance_Exception e); repeat split. }
  destruct Hworld as (Hcalls & Hfiles & Hclock).
  split; [apply is_enabled_self |].
  split; [exact Hcalls |]. split; [exact Hfiles |]. split; [exact Hclock |].
  rewrite is_enabled_dicts. fold l. apply delete_insert_eq.
Qed.

(** The whole effect of a call that reaches the feature. *)
Lemma is_enabled_evaluated n c d s (f : Feature) (r : outcome bool) (h' : FeatureHeap) :
  is_initialized (self s) = true →
  features (self s) !! n = Some f →
  Feature_is_enabled f (evaluation_context s c) (default false d) (feature_heap (world s))
  = (r, h') →
  is_enabled n c d s
  = let s1 :=
      mkSt (self s)
        (set_feature_heap h'
           (set_dicts
              (<[default is_enabled_default_context c := evaluation_context s c]>
                 (dicts (world s)))
              (world s))) in
    match r with
    | Return b => (Return b, s1)
    | Raise e =>
        if isinstance_Exception e then
          (Return (default false d),
           mkSt (self s)
             (add_warning (Warning "Error checking feature flag: %s" (LogExn e))
                (add_warning (Warning "Returning default value for feature: %s" (LogStr n))
                   (world s1))))
        else (Raise e, s1)
    end.
Proof.
  intros Hinit Hf Hres. unfold evaluation_context in *. unfold_methods.
  rewrite Hinit. simpl. rewrite Hf. simpl.
  unfold read_dict at 1. simpl. rewrite lookup_insert_eq. simpl.
  rewrite Hres. simpl.
  destruct r as [b|e]; simpl; [reflexivity |].
  destruct (isinstance_Exception e); reflexivity.
Qed.

(** X8.  When the client is initialized, the feature exists and its
    evaluation returns, [is_enabled] returns the feature's verdict, not the
    default value, and logs nothing. *)
Theorem is_enabled_returns_feature_verdict n c d s (f : Feature) (b : bool)
    (h' : FeatureHeap) :
  is_initialized (self s) = true →
  features (self s) !! n = Some f →
  Feature_is_enabled f (evaluation_context s c) (default false d) (feature_heap (world s))
  = (Return b, h') →
  (is_enabled n c d s).1 = Return b
  ∧ warnings (world (is_enabled n c d s).2) = warnings (world s)
  ∧ feature_heap (world (is_enabled n c d s).2) = h'.
Proof.
  intros Hinit Hf Hres.
  rewrite (is_enabled_evaluated n c d s f (Return b) h' Hinit Hf Hres).
  repeat split.
Qed.

(** X9.  When the client is not initialized, or the feature name is
    unknown, no feature is evaluated (the feature objects keep their state)
    and exactly two warnings are logged, the first naming the feature. *)
Theorem is_enabled_fallback_logs_twice n c d s :
  is_initialized (self s) = false ∨ features (self s) !! n = None →
  feature_heap (world (is_enabled n c d s).2) = feature_heap (world s)
  ∧ warnings (world (is_enabled n c d s).2)
    = warnings (world s)
      ++ [Warning "Returning default value for feature: %s" (LogStr n);
          if is_initialized (self s)
          then Warning "Error checking feature flag: %s" (LogExn (KeyError n))
          else Warning "Attempted to get feature_flag %s, but client wasn't initialized!"
                 (LogStr n)].
Proof.
  intros Hcase. unfold_methods.
  destruct (is_initialized (self s)); simpl.
  - destruct Hcase as [Hcase|Hcase]; [discriminate |].
    rewrite Hcase. simpl. rewrite <- app_assoc. split; reflexivity.
  - rewrite <- app_assoc. split; reflexivity.
Qed.

(** X10.  When evaluating the feature raises an [Exception], two warnings
    are logged, the feature name and then the exception itself, and what
    the feature object had written before it failed stays written. *)
Theorem is_enabled_logs_exception n c d s (f : Feature) (e : exn) (h' : FeatureHeap) :
  is_initialized (self s) = true →
  features (self s) !! n = Some f →
  Feature_is_enabled f (evaluation_context s c) (default false d) (feature_heap (world s))
  = (Raise e, h') →
  isinstance_Exception e = true →
  warnings (world (is_enabled n c d s).2)
  = warnings (world s)
    ++ [Warning "Returning default value for feature: %s" (LogStr n);
        Warning "Error checking feature flag: %s" (LogExn e)]
  ∧ feature_heap (world (is_enabled n c d s).2) = h'.
Proof.
  intros Hinit Hf Hres Hexc.
  rewrite (is_enabled_evaluated n c d s f (Raise e) h' Hinit Hf Hres).
  simpl. rewrite Hexc. simpl. rewrite <- app_assoc. split; reflexivity.
Qed.

(** X11.  An exception that is not an instance of [Exception]
    ([KeyboardInterrupt], [SystemExit]) is not caught: [is_enabled] raises
    it, logs nothing and returns no default value; the context has been
    updated all the same. *)
Theorem is_enabled_propagates_non_Exception n c d s (f : Feature) (e : exn)
    (h' : FeatureHeap) :
  is_initialized (self s) = true →
  features (self s) !! n = Some f →
  Feature_is_enabled f (evaluation_context s c) (default false d) (feature_heap (world s))
  = (Raise e, h') →
  isinstance_Exception e = false →
  (is_enabled n c d s).1 = Raise e
  ∧ warnings (world (is_enabled n c d s).2) = warnings (world s)
  ∧ read_dict (world (is_enabled n c d s).2) (default is_enabled_default_context c)
    = evaluation_context s c.
Proof.
  intros Hinit Hf Hres Hexc.
  split; [| split; [| apply read_dict_after_is_enabled]].
  - rewrite (is_enabled_evaluated n c d s f (Raise e) h' Hinit Hf Hres).
    simpl. rewrite Hexc. reflexivity.
  - rewrite (is_enabled_evaluated n c d s f (Raise e) h' Hinit Hf Hres).
    simpl. rewrite Hexc. reflexivity.
Qed.

(** X12.  Updating the context is idempotent: a second call with the same
    context evaluates on the same dictionary as the first and leaves every
    dictionary as the first call left it. *)
Theorem is_enabled_context_update_idempotent n n' c d d' s :
  let s1 := (is_enabled n c d s).2 in
  let s2 := (is_enabled n' c d' s1).2 in
  evaluation_context s1 c = evaluation_context s c
  ∧ dicts (world s2) = dicts (world s1).
Proof.
  intros s1 s2.
  assert (Hctx : evaluation_context s1 c = evaluation_context s c).
  { unfold evaluation_context at 1. subst s1.
    rewrite is_enabled_self, read_dict_after_is_enabled.
    unfold evaluation_context.
    rewrite (assoc_L (∪)), (idemp_L (∪)). reflexivity. }
  split; [exact Hctx |].
  subst s2. rewrite is_enabled_dicts, Hctx. subst s1.
  rewrite is_enabled_dicts. apply insert_insert_eq.
Qed.
End IsEnabledExtras.

Section LifecycleExtras.
Context `{Collaborators}.
Implicit Types (n : string) (c : option loc) (d : option bool) (s : St).

(** X13.  [is_initialized] becomes true exactly through a call of
    [initialize_client] that returns; a call that raises leaves the flag as
    it was. *)
Theorem initialize_client_sets_flag_on_return s :
  is_initialized (self (initialize_client s).2)
  = match (initialize_client s).1 with
    | Return _ => true
    | Raise _ => is_initialized (self s)
    end.
Proof.
  unfold_lifecycle.
  destruct (unleash_disable_registration (self s)),
    (unleash_disable_metrics (self s)); simpl;
    repeat case_collaborator; reflexivity.
Qed.

(** X14.  With [disable_metrics] set, [initialize_client] never assigns
    [metric_job]; without it, a call that returns has stored a metrics job. *)
Theorem initialize_client_metric_job s :
  (unleash_disable_metrics (self s) = true →
   metric_job (self (initialize_client s).2) = metric_job (self s))
  ∧ (unleash_disable_metrics (self s) = false →
     (initialize_client s).1 = Return tt →
     is_Some (metric_job (self (initialize_client s).2))).
Proof.
  split.
  - intros Hm. unfold_lifecycle. rewrite Hm. simpl.
    destruct (unleash_disable_registration (self s)); simpl;
      repeat case_collaborator; reflexivity.
  - intros Hm. unfold_lifecycle. rewrite Hm. simpl.
    destruct (unleash_disable_registration (self s)); simpl;
      repeat case_collaborator; intros Hret; try discriminate; eexists; reflexivity.
Qed.

(** X15.  Registration comes first and is not guarded: when it is enabled
    and [register_client] raises, [initialize_client] raises the same
    exception, and nothing else has happened: no fetch, no scheduler start,
    no job, the client as it was. *)
Theorem initialize_client_registration_failure s (e : exn) :
  unleash_disable_registration (self s) = false →
  register_client (unleash_url (self s)) (unleash_app_name (self s))
    (unleash_instance_id (self s)) (unleash_metrics_interval (self s))
    (unleash_custom_headers (self s)) (strategy_mapping (self s)) = Raise e →
  initialize_client s
  = (Raise e,
     mkSt (self s)
       (add_call
          (Call_register_client (unleash_url (self s)) (unleash_app_name (self s))
             (unleash_instance_id (self s)) (unleash_metrics_interval (self s))
             (unleash_custom_headers (self s)) (strategy_mapping (self s)))
          (world s))).
Proof.
  intros Hr He. unfold_lifecycle. rewrite Hr. simpl. rewrite He. reflexivity.
Qed.

(** X16.  The cache is deleted last: when a job removal or the shutdown of
    the scheduler raises, [destroy] raises that exception without having
    reached [self.cache.delete()], and the cache object and the cache
    directories are as they were. *)
Theorem destroy_failure_before_cache_delete s (e : exn) :
  (destroy_before_cache_delete s).1 = Raise e →
  destroy s = (Raise e, (destroy_before_cache_delete s).2)
  ∧ cache (self (destroy s).2) = cache (self s)
  ∧ files (world (destroy s).2) = files (world s).
Proof.
  unfold destroy_before_cache_delete. unfold_lifecycle.
  destruct (fl_job (self s)) as [j|]; simpl.
  - case_collaborator.
    + destruct (metric_job (self s)) as [j'|]; simpl;
        repeat case_collaborator; intros Hraise; try discriminate;
        injection Hraise as ->; repeat split.
    + intros Hraise. injection Hraise as ->. repeat split.
  - intros Hraise. injection Hraise as <-. repeat split.
Qed.

(** X17.  When [destroy] returns, the cache directory of the client is gone
    from disk, with everything persisted in it, and the write buffer is
    empty. *)
Theorem destroy_deletes_cache s :
  (destroy s).1 = Return tt →
  files (world (destroy s).2) = delete (fc_path (cache (self s))) (files (world s))
  ∧ fc_buffer (cache (self (destroy s).2)) = ∅
  ∧ ∀ k : string, persisted (files (world (destroy s).2)) (fc_path (cache (self s))) k = None.
Proof.
  intros Hret.
  assert (Hfiles : files (world (destroy s).2)
                   = delete (fc_path (cache (self s))) (files (world s))
                   ∧ fc_buffer (cache (self (destroy s).2)) = ∅).
  { revert Hret. unfold_lifecycle.
    destruct (fl_job (self s)) as [j|]; simpl; [| discriminate].
    case_collaborator; [| discriminate].
    destruct (metric_job (self s)) as [j'|]; simpl;
      repeat case_collaborator; intros Hret; try discriminate; split; reflexivity. }
  destruct Hfiles as [Hfiles Hbuffer].
  split; [exact Hfiles |]. split; [exact Hbuffer |].
  intros k. unfold persisted. rewrite Hfiles, lookup_delete_eq. reflexivity.
Qed.

(** What [destroy] leaves alone, on every path through it. *)
Lemma destroy_untouched s :
  is_initialized (self (destroy s).2) = is_initialized (self s)
  ∧ fl_job (self (destroy s).2) = fl_job (self s)
  ∧ metric_job (self (destroy s).2) = metric_job (self s)
  ∧ features (self (destroy s).2) = features (self s)
  ∧ dicts (world (destroy s).2) = dicts (world s)
  ∧ feature_heap (world (destroy s).2) = feature_heap (world s)
  ∧ calls (world (destroy s).2) = calls (world s).
Proof.
  unfold_lifecycle.
  destruct (fl_job (self s)) as [j|] eqn:Hj; simpl;
    [| repeat split; rewrite ?Hj; reflexivity].
  case_collaborator; [| repeat split; rewrite ?Hj; reflexivity].
  destruct (metric_job (self s)) as [j'|] eqn:Hm; simpl;
    repeat case_collaborator; repeat split; rewrite ?Hj, ?Hm; reflexivity.
Qed.

(** X18.  [destroy] does not reset the client: whether it returns or
    raises, [is_initialized], [fl_job], [metric_job] and [features] are as
    before, and so are the callers' dictionaries, the feature objects and
    the requests sent. *)
Theorem destroy_keeps_client_state s :
  is_initialized (self (destroy s).2) = is_initialized (self s)
  ∧ fl_job (self (destroy s).2) = fl_job (self s)
  ∧ metric_job (self (destroy s).2) = metric_job (self s)
  ∧ features (self (destroy s).2) = features (self s)
  ∧ dicts (world (destroy s).2) = dicts (world s)
  ∧ feature_heap (world (destroy s).2) = feature_heap (world s)
  ∧ calls (world (destroy s).2) = calls (world s).
Proof.
  destruct (destroy_untouched s) as (Hi & Hj & Hm & Hf & Hd & Hh & Hc).
  split; [exact Hi |]. split; [exact Hj |]. split; [exact Hm |].
  split; [exact Hf |]. split; [exact Hd |]. split; [exact Hh | exact Hc].
Qed.

(** X19.  After [destroy], [is_enabled] returns what it would have returned
    before: the client still counts as initialized and still evaluates its
    features. *)
Theorem is_enabled_after_destroy n c d s :
  (is_enabled n c d (destroy s).2).1 = (is_enabled n c d s).1.
Proof.
  destruct (destroy_untouched s) as (Hi & _ & _ & Hf & Hd & Hh & _).
  pose proof (destroy_configuration s) as Hc.
  unfold configuration in Hc. injection Hc as _ _ _ _ _ _ _ _ _ Hs _.
  rewrite !is_enabled_result. unfold evaluation_context, read_dict.
  rewrite Hi, Hf, Hd, Hh, Hs. reflexivity.
Qed.
End LifecycleExtras.

Section StrategyExtras.
Variable normalized_hash : pyval → pyval → Z.

(** X20.  Of the context, the strategy reads "sessionId" and nothing else:
    two contexts with the same value (or the same absence) under that key
    get the same verdict or the same exception. *)
Theorem GradualRolloutSessionId_reads_sessionId_only (parameters context context' : dict) :
  context !! "sessionId" = context' !! "sessionId" →
  GradualRolloutSessionId_call normalized_hash parameters (Some context)
  = GradualRolloutSessionId_call normalized_hash parameters (Some context').
Proof.
  intros Hsame. unfold GradualRolloutSessionId_call, subscript, getitem.
  rewrite Hsame. reflexivity.
Qed.

(** X21.  The parameters are read before the context: without
    "percentage" the call raises [KeyError] for "percentage", and with it
    but without "groupId" [KeyError] for "groupId", whatever the context is,
    a missing one included. *)
Theorem GradualRolloutSessionId_missing_parameter (parameters : dict)
    (context : option dict) :
  (parameters !! "percentage" = None →
   GradualRolloutSessionId_call normalized_hash parameters context
   = Raise (KeyError "percentage"))
  ∧ (is_Some (parameters !! "percentage") →
     parameters !! "groupId" = None →
     GradualRolloutSessionId_call normalized_hash parameters context
     = Raise (KeyError "groupId")).
Proof.
  unfold GradualRolloutSessionId_call, getitem. split.
  - intros ->. reflexivity.
  - intros [p ->] ->. reflexivity.
Qed.

(** X22.  A percentage that is a string, which is how the server sends
    parameters, cannot be compared with the hash: the call raises
    [TypeError]. *)
Theorem GradualRolloutSessionId_string_percentage (parameters context : dict)
    (p : string) (g sid : pyval) :
  parameters !! "percentage" = Some (VStr p) →
  parameters !! "groupId" = Some g →
  context !! "sessionId" = Some sid →
  GradualRolloutSessionId_call normalized_hash parameters (Some context) = Raise TypeError.
Proof.
  intros Hp Hg Hs. unfold GradualRolloutSessionId_call, subscript, getitem.
  rewrite Hp, Hg, Hs. reflexivity.
Qed.

(** X23.  Without a context (the default [None]) and with both parameters
    present the call raises [TypeError]; with a context that has no
    "sessionId" it raises [KeyError]. *)
Theorem GradualRolloutSessionId_missing_session (parameters context : dict) (p g : pyval) :
  parameters !! "percentage" = Some p →
  parameters !! "groupId" = Some g →
  GradualRolloutSessionId_call normalized_hash parameters None = Raise TypeError
  ∧ (context !! "sessionId" = None →
     GradualRolloutSessionId_call normalized_hash parameters (Some context)
     = Raise (KeyError "sessionId")).
Proof.
  intros Hp Hg. unfold GradualRolloutSessionId_call, subscript, getitem.
  rewrite Hp, Hg. split; [reflexivity |]. intros ->. reflexivity.
Qed.
End StrategyExtras.

(** ** The further properties on the sample client *)

(** X2 on a URL that ends in a forward slash. *)
Lemma init_url_keeps_other_ending_witness :
  "/"%char ≠ "\"%char
  ∧ unleash_url (__init__ (H := sample) "http://localhost:4242/" "pytest" no_kwargs
                   sample_world).1
    = "http://localhost:4242/".
Proof.
  split; [discriminate |].
  apply (init_url_keeps_other_ending (H := sample) "http://localhost:4242" "/"%char
           "pytest" no_kwargs sample_world).
  discriminate.
Defined.

(** X6 after a call of [is_enabled] and a failed [destroy]. *)
Lemma default_until_initialize_client_witness :
  let history := [Do_is_enabled "beta" None None; Do_destroy] in
  let s := run history sample_client in
  forallb (λ st, negb (is_initialize_client st)) history = true
  ∧ is_initialized (self s) = false
  ∧ features (self s) = ∅
  ∧ (is_enabled "beta" (Some 2%positive) (Some true) s).1 = Return true.
Proof.
  intros history s. split; [reflexivity |].
  apply (default_until_initialize_client (H := sample) "http://localhost:4242" "pytest"
           no_kwargs sample_world history "beta" (Some 2%positive) (Some true)).
  reflexivity.
Defined.

(** X8 on the feature "beta", which says no where the default is yes. *)
Lemma is_enabled_returns_feature_verdict_witness :
  let s := (initialize_client sample_client).2 in
  features (self s) !! "beta" = sample_features !! "beta"
  ∧ (is_enabled "beta" (Some 2%positive) (Some true) s).1 = Return false
  ∧ warnings (world (is_enabled "beta" (Some 2%positive) (Some true) s).2)
    = warnings (world s).
Proof.
  intros s. split; [reflexivity |].
  destruct (is_enabled_returns_feature_verdict (H := sample)
              "beta" (Some 2%positive) (Some true) s
              (mk_sample_feature "beta" true
                 [Strategy_gradualRolloutSessionId
                    {[ "percentage" := VInt 50; "groupId" := VStr "g1" ]}])
              false {[ "beta" := (0%nat, 1%nat) ]})
    as (Hres & Hlog & _); [reflexivity | reflexivity | reflexivity |].
  split; [exact Hres | exact Hlog].
Defined.

(** X9 on the sample client before [initialize_client]. *)
Lemma is_enabled_fallback_logs_twice_witness :
  is_initialized (self sample_client) = false
  ∧ feature_heap (world (is_enabled "beta" None None sample_client).2)
    = feature_heap (world sample_client)
  ∧ length (warnings (world (is_enabled "beta" None None sample_client).2)) = 2%nat.
Proof.
  split; [reflexivity |].
  destruct (is_enabled_fallback_logs_twice (H := sample) "beta" None None sample_client)
    as [Hheap Hlog]; [left; reflexivity |].
  split; [exact Hheap |]. rewrite Hlog. reflexivity.
Defined.

(** X10 on the feature "broken". *)
Lemma is_enabled_logs_exception_witness :
  let s := (initialize_client sample_client).2 in
  warnings (world (is_enabled "broken" (Some 2%positive) None s).2)
  = [Warning "Returning default value for feature: %s" (LogStr "broken");
     Warning "Error checking feature flag: %s" (LogExn (OtherException "boom"))].
Proof.
  intros s.
  destruct (is_enabled_logs_exception (H := sample) "broken" (Some 2%positive) None s
              (mk_sample_feature "broken" true
                 [Strategy_custom_failing (OtherException "boom")])
              (OtherException "boom") ∅)
    as [Hlog _]; [reflexivity | reflexivity | reflexivity | reflexivity |].
  rewrite Hlog. reflexivity.
Defined.

(** X11 on a feature whose strategy is interrupted. *)
Lemma is_enabled_propagates_non_Exception_witness :
  let stop := mk_sample_feature "stop" true [Strategy_custom_failing KeyboardInterrupt] in
  let s0 := (initialize_client sample_client).2 in
  let s := mkSt (set_features {[ "stop" := stop ]} (self s0)) (world s0) in
  isinstance_Exception KeyboardInterrupt = false
  ∧ (is_enabled "stop" None (Some true) s).1 = Raise KeyboardInterrupt
  ∧ warnings (world (is_enabled "stop" None (Some true) s).2) = warnings (world s).
Proof.
  intros stop s0 s. split; [reflexivity |].
  destruct (is_enabled_propagates_non_Exception (H := sample) "stop" None (Some true) s
              stop KeyboardInterrupt ∅)
    as (Hres & Hlog & _); [reflexivity | reflexivity | reflexivity | reflexivity |].
  split; [exact Hres | exact Hlog].
Defined.

(** X14 on a client with metrics disabled and on one with metrics enabled. *)
Lemma initialize_client_metric_job_witness :
  let kw := mk_init_kwargs None None None None (Some true) None None None None in
  let quiet := construct (H := sample) "http://localhost:4242" "pytest" kw sample_world in
  unleash_disable_metrics (self quiet) = true
  ∧ metric_job (self (initialize_client quiet).2) = None
  ∧ unleash_disable_metrics (self sample_client) = false
  ∧ is_Some (metric_job (self (initialize_client sample_client).2)).
Proof.
  intros kw quiet. split; [reflexivity |].
  split.
  - destruct (initialize_client_metric_job (H := sample) quiet) as [Hoff _].
    rewrite Hoff; reflexivity.
  - split; [reflexivity |].
    destruct (initialize_client_metric_job (H := sample) sample_client) as [_ Hon].
    apply Hon; reflexivity.
Defined.

(** X15 with a server that cannot be reached. *)
Lemma initialize_client_registration_failure_witness :
  let s := construct (H := sample_unreachable) "http://localhost:4242" "pytest" no_kwargs
             (mkWorld ∅ ∅ ∅ 2000 [] []) in
  (initialize_client s).1 = Raise (OtherException "connection refused")
  ∧ self (initialize_client s).2 = self s
  ∧ length (calls (world (initialize_client s).2)) = 1%nat.
Proof.
  intros s.
  rewrite (initialize_client_registration_failure (H := sample_unreachable) s
             (OtherException "connection refused") eq_refl eq_refl).
  repeat split.
Defined.

(** X16 on the sample client before [initialize_client]. *)
Lemma destroy_failure_before_cache_delete_witness :
  (destroy_before_cache_delete sample_client).1 = Raise (AttributeError "remove")
  ∧ (destroy sample_client).1 = Raise (AttributeError "remove")
  ∧ persisted (files (world (destroy sample_client).2)) (None, "unleash-client-python") "mlst"
    = Some (VDatetime 2000).
Proof.
  split; [reflexivity |].
  destruct (destroy_failure_before_cache_delete (H := sample) sample_client
              (AttributeError "remove"))
    as (Hdestroy & _ & Hfiles); [reflexivity |].
  split; [rewrite Hdestroy; reflexivity |].
  rewrite Hfiles. reflexivity.
Defined.

(** X17 on the sample client after [initialize_client]. *)
Lemma destroy_deletes_cache_witness :
  let s := (initialize_client sample_client).2 in
  (destroy s).1 = Return tt
  ∧ persisted (files (world s)) (None, "unleash-client-python") "mlst"
    = Some (VDatetime 2000)
  ∧ persisted (files (world (destroy s).2)) (None, "unleash-client-python") "mlst" = None.
Proof.
  intros s. split; [reflexivity |]. split; [reflexivity |].
  destruct (destroy_deletes_cache (H := sample) s) as (_ & _ & Hgone); [reflexivity |].
  apply (Hgone "mlst").
Defined.

(** X20 on two contexts that differ in "userId" only. *)
Lemma GradualRolloutSessionId_reads_sessionId_only_witness :
  let parameters : dict := {[ "percentage" := VInt 50; "groupId" := VStr "g1" ]} in
  let context : dict := {[ "sessionId" := VStr "N"; "userId" := VStr "u1" ]} in
  let context' : dict := {[ "sessionId" := VStr "N"; "userId" := VStr "u2" ]} in
  GradualRolloutSessionId_call checksum_normalized_hash parameters (Some context)
  = GradualRolloutSessionId_call checksum_normalized_hash parameters (Some context').
Proof.
  intros parameters context context'.
  apply (GradualRolloutSessionId_reads_sessionId_only checksum_normalized_hash
           parameters context context').
  reflexivity.
Defined.

(** X21 on parameters without "percentage" and without "groupId". *)
Lemma GradualRolloutSessionId_missing_parameter_witness :
  GradualRolloutSessionId_call checksum_normalized_hash {[ "groupId" := VStr "g1" ]} None
  = Raise (KeyError "percentage")
  ∧ GradualRolloutSessionId_call checksum_normalized_hash {[ "percentage" := VInt 50 ]} None
    = Raise (KeyError "groupId").
Proof.
  split.
  - destruct (GradualRolloutSessionId_missing_parameter checksum_normalized_hash
                {[ "groupId" := VStr "g1" ]} None) as [Hp _].
    apply Hp. reflexivity.
  - destruct (GradualRolloutSessionId_missing_parameter checksum_normalized_hash
                {[ "percentage" := VInt 50 ]} None) as [_ Hg].
    apply Hg; [eexists; reflexivity | reflexivity].
Defined.

(** X22 on the percentage "50". *)
Lemma GradualRolloutSessionId_string_percentage_witness :
  GradualRolloutSessionId_call checksum_normalized_hash
    {[ "percentage" := VStr "50"; "groupId" := VStr "g1" ]}
    (Some {[ "sessionId" := VStr "N" ]})
  = Raise TypeError.
Proof.
  apply (GradualRolloutSessionId_string_percentage checksum_normalized_hash
           {[ "percentage" := VStr "50"; "groupId" := VStr "g1" ]}
           {[ "sessionId" := VStr "N" ]} "50" (VStr "g1") (VStr "N")); reflexivity.
Defined.

(** X23 without a context and with a context that has only "userId". *)
Lemma GradualRolloutSessionId_missing_session_witness :
  let parameters : dict := {[ "percentage" := VInt 50; "groupId" := VStr "g1" ]} in
  GradualRolloutSessionId_call checksum_normalized_hash parameters None = Raise TypeError
  ∧ GradualRolloutSessionId_call checksum_normalized_hash parameters
      (Some {[ "userId" := VStr "u1" ]})
    = Raise (KeyError "sessionId").
Proof.
  intros parameters.
  destruct (GradualRolloutSessionId_missing_session checksum_normalized_hash parameters
              {[ "userId" := VStr "u1" ]} (VInt 50) (VStr "g1") eq_refl eq_refl)
    as [Hnone Hkey].
  split; [exact Hnone | apply Hkey; reflexivity].
Defined.
